(** * Document storage and duplicate detection ([modules/database.py])

    A shallow embedding of the document functions of [modules/database.py]:
    [get_supabase_client], [save_document], [get_all_documents_from_db],
    [get_document_by_id], [delete_document] and [find_similar_documents],
    together with the parts of the Python runtime they rely on
    ([str.split], [str.lower], [pathlib]'s [suffix], [json.dumps] and
    [json.loads], [round], [list.sort]) and of the remote [documents] table.

    Conventions of the model.
    - A Python [str] is a [string] whose characters are the code points
      0..255 (Latin-1); [str.lower] and [str.isspace] are modelled on that
      range.
    - A column that holds SQL [NULL] (Python [None]) is [None].
    - The summary and metadata maps are JSON-shaped: string keys, and no
      float among the values.
    - Python floats are idealised: the similarity score, the threshold and
      the rounded percentage are exact rationals ([Q]), and [round] rounds
      ties to even as Python does on the exact value.
    - The remote table is a list of rows; [upsert], the two selections and
      the deletion follow what the store does for a table whose primary key
      is [id].  A remote call either runs or raises, as the list [faults]
      of the world says.
    - What the functions print is left out. *)

From Stdlib Require Import ZArith QArith Qround Qabs String Ascii List Sorted
  Permutation Lia Bool Decimal DecimalString DecimalZ DecimalFacts.
From stdpp Require Import base gmap sets list strings.

Import ListNotations.
Local Open Scope string_scope.
Local Open Scope list_scope.
Local Open Scope nat_scope.

(** ** Python strings *)

Module PyStr.

(** [str.isspace] on one character: TAB..CR, FS..US, space, NEL, NBSP. *)
Definition isspace (c : ascii) : bool :=
  let n := nat_of_ascii c in
  ((9 <=? n) && (n <=? 13)) || ((28 <=? n) && (n <=? 32))
  || (n =? 133) || (n =? 160).

(** [str.lower] on one character: A..Z and the Latin-1 capitals
    0xC0..0xDE (0xD7, the multiplication sign, excepted) move up by 32. *)
Definition lower_char (c : ascii) : ascii :=
  let n := nat_of_ascii c in
  if ((65 <=? n) && (n <=? 90))
     || ((192 <=? n) && (n <=? 222) && negb (n =? 215))
  then ascii_of_nat (n + 32) else c.

Fixpoint lower (s : string) : string :=
  match s with
  | EmptyString => EmptyString
  | String c s' => String (lower_char c) (lower s')
  end.

(** [s.split()]: the maximal runs of non-whitespace characters, in order.
    [cur] is the run being read. *)
Fixpoint split_from (cur : string) (s : string) : list string :=
  match s with
  | EmptyString => match cur with EmptyString => [] | _ => [cur] end
  | String c s' =>
      if isspace c then
        match cur with
        | EmptyString => split_from EmptyString s'
        | _ => cur :: split_from EmptyString s'
        end
      else split_from (cur +:+ String c EmptyString) s'
  end.

Definition split (s : string) : list string := split_from EmptyString s.

(** [s[:n]] *)
Definition take (n : nat) (s : string) : string := substring 0 n s.

(** [s.rfind(c)]: index of the last occurrence of [c], if any. *)
Fixpoint rfind (c : ascii) (s : string) : option nat :=
  match s with
  | EmptyString => None
  | String d s' =>
      match rfind c s' with
      | Some i => Some (S i)
      | None => if Ascii.eqb c d then Some 0%nat else None
      end
  end.

(** [s[i:]] *)
Fixpoint drop (i : nat) (s : string) : string :=
  match i, s with
  | O, _ => s
  | S i', EmptyString => EmptyString
  | S i', String _ s' => drop i' s'
  end.

(** [s.split(c)] for a one-character separator: empty fields are kept. *)
Fixpoint split_on_from (c : ascii) (cur : string) (s : string) : list string :=
  match s with
  | EmptyString => [cur]
  | String d s' =>
      if Ascii.eqb c d then cur :: split_on_from c EmptyString s'
      else split_on_from c (cur +:+ String d EmptyString) s'
  end.

Definition split_on (c : ascii) (s : string) : list string :=
  split_on_from c EmptyString s.

End PyStr.

(** Truthiness of the Python values that the module tests with [if], [or]
    and [not]. *)
Definition str_truthy (s : string) : bool :=
  match s with EmptyString => false | _ => true end.

Definition opt_truthy (o : option string) : bool :=
  match o with Some s => str_truthy s | None => false end.

(** ** [pathlib]: [Path(filename).suffix] (POSIX flavour) *)

(** [Path(p).name]: the last component of [p] that is neither empty nor
    ["."]; the empty string when there is none. *)
Definition path_name (p : string) : string :=
  List.last
    (List.filter (fun part => negb (String.eqb part "") && negb (String.eqb part "."))
       (PyStr.split_on "/"%char p))
    "".

(** [suffix]: [name[i:]] for [i = name.rfind('.')] when [0 < i < len(name) - 1],
    otherwise the empty string. *)
Definition path_suffix (p : string) : string :=
  let name := path_name p in
  match PyStr.rfind "."%char name with
  | Some i =>
      if (0 <? i)%nat && (i <? String.length name - 1)%nat
      then PyStr.drop i name else ""
  | None => ""
  end.

(** ** Token sets *)

(** [set(text.lower().split())] *)
Definition word_set (text : string) : gset string :=
  list_to_set (PyStr.split (PyStr.lower text)).

(** ** JSON: what [json.dumps] writes and [json.loads] reads

    The summary and metadata maps are JSON-shaped Python values: [None],
    booleans, integers, strings, lists, and dictionaries with string keys
    (kept in insertion order, as Python dictionaries are).  Floats are not
    part of the model. *)

Module Json.

#[local] Unset Elimination Schemes.
Inductive json : Type :=
| JNull
| JBool (b : bool)
| JInt (n : Z)
| JStr (s : string)
| JList (l : list json)
| JDict (d : list (string * json)).
#[local] Set Elimination Schemes.

Definition pydict : Type := list (string * json).

(** *** Encoder: [json.dumps] with its default arguments *)

Definition hex_digit (n : nat) : ascii :=
  if n <? 10 then ascii_of_nat (48 + n) else ascii_of_nat (87 + n).

(** One character of a string literal ([ensure_ascii=True]): the short
    escapes, ["\u00xx"] for every other character outside [' '..'~']. *)
Definition escape_char (c : ascii) : string :=
  let n := nat_of_ascii c in
  if n =? 34 then String "\" (String "034" "")
  else if n =? 92 then "\\"
  else if n =? 8 then "\b"
  else if n =? 12 then "\f"
  else if n =? 10 then "\n"
  else if n =? 13 then "\r"
  else if n =? 9 then "\t"
  else if (32 <=? n) && (n <=? 126) then String c ""
  else String "\" (String "u" (String "0" (String "0"
         (String (hex_digit (n / 16)) (String (hex_digit (n mod 16)) ""))))).

Fixpoint escape (s : string) : string :=
  match s with
  | EmptyString => EmptyString
  | String c s' => escape_char c +:+ escape s'
  end.

Definition encode_str (s : string) : string :=
  String "034" (escape s +:+ String "034" "").

Definition encode_int (n : Z) : string :=
  NilEmpty.string_of_int (Z.to_int n).

(** The text after the opening bracket of a list and of a dictionary,
    for an encoder [enc] of the elements: the items joined by [", "], then
    the closing bracket. *)
Section Joined.
Variable enc : json -> string.

Fixpoint dumps_items (l : list json) : string :=
  match l with
  | [] => "]"
  | x :: l' => enc x +:+ match l' with [] => "]" | _ :: _ => ", " +:+ dumps_items l' end
  end.

Fixpoint dumps_members (d : list (string * json)) : string :=
  match d with
  | [] => "}"
  | (k, x) :: d' =>
      encode_str k +:+ ": " +:+ enc x
      +:+ match d' with [] => "}" | _ :: _ => ", " +:+ dumps_members d' end
  end.
End Joined.

Fixpoint dumps (v : json) : string :=
  match v with
  | JNull => "null"
  | JBool true => "true"
  | JBool false => "false"
  | JInt n => encode_int n
  | JStr s => encode_str s
  | JList l => "[" +:+ dumps_items dumps l
  | JDict d => "{" +:+ dumps_members dumps d
  end.

(** *** Decoder: [json.loads]

    [None] stands for [JSONDecodeError], and also for a document that
    holds a float literal or a character above U+00FF, which the model
    does not represent. *)

Definition is_ws (c : ascii) : bool :=
  let n := nat_of_ascii c in (n =? 32) || (n =? 9) || (n =? 10) || (n =? 13).

Fixpoint skip_ws (s : string) : string :=
  match s with
  | EmptyString => EmptyString
  | String c s' => if is_ws c then skip_ws s' else s
  end.

Definition hex_value (c : ascii) : option nat :=
  let n := nat_of_ascii c in
  if (48 <=? n) && (n <=? 57) then Some (n - 48)
  else if (97 <=? n) && (n <=? 102) then Some (n - 87)
  else if (65 <=? n) && (n <=? 70) then Some (n - 55)
  else None.

(** The character written [\uh1h2h3h4], when it is below U+0100. *)
Definition unicode_escape (h1 h2 h3 h4 : ascii) : option ascii :=
  match hex_value h1, hex_value h2, hex_value h3, hex_value h4 with
  | Some 0, Some 0, Some a, Some b => Some (ascii_of_nat (16 * a + b))
  | _, _, _, _ => None
  end.

(** [scanstring]: the input just after an opening quote; the decoded
    literal and the input after the closing quote.  A raw control
    character is an error (strict mode). *)
Fixpoint scan_string (s : string) : option (string * string) :=
  match s with
  | EmptyString => None
  | String c r =>
      if Ascii.eqb c "034" then Some (EmptyString, r)
      else if Ascii.eqb c "\" then
        match r with
        | EmptyString => None
        | String e r1 =>
            let continue (d : ascii) (rest : string) :=
              match scan_string rest with
              | Some (t, r') => Some (String d t, r')
              | None => None
              end in
            if Ascii.eqb e "034" then continue "034"%char r1
            else if Ascii.eqb e "\" then continue "\"%char r1
            else if Ascii.eqb e "/" then continue "/"%char r1
            else if Ascii.eqb e "b" then continue (ascii_of_nat 8) r1
            else if Ascii.eqb e "f" then continue (ascii_of_nat 12) r1
            else if Ascii.eqb e "n" then continue (ascii_of_nat 10) r1
            else if Ascii.eqb e "r" then continue (ascii_of_nat 13) r1
            else if Ascii.eqb e "t" then continue (ascii_of_nat 9) r1
            else if Ascii.eqb e "u" then
              match r1 with
              | String h1 (String h2 (String h3 (String h4 r2))) =>
                  match unicode_escape h1 h2 h3 h4 with
                  | Some d => continue d r2
                  | None => None
                  end
              | _ => None
              end
            else None
        end
      else if nat_of_ascii c <? 32 then None
      else
        match scan_string r with
        | Some (t, r') => Some (String c t, r')
        | None => None
        end
  end.

Definition is_digit (c : ascii) : bool :=
  let n := nat_of_ascii c in (48 <=? n) && (n <=? 57).

(** The longest run of decimal digits at the head of the input. *)
Fixpoint scan_digits (s : string) : string * string :=
  match s with
  | EmptyString => (EmptyString, EmptyString)
  | String c r =>
      if is_digit c then
        let '(ds, r') := scan_digits r in (String c ds, r')
      else (EmptyString, s)
  end.

(** An integer literal (an optional minus sign, then either a single 0 or
    digits that start with 1..9) that is not continued by a fraction or an
    exponent.  A run of digits that starts with [0] and goes on is
    refused: the decoder reads the [0] and then finds no delimiter. *)
Definition scan_int (s : string) : option (Z * string) :=
  let '(neg, body) :=
    match s with
    | String "-" r => (true, r)
    | _ => (false, s)
    end in
  let '(ds, rest) := scan_digits body in
  match ds with
  | EmptyString => None
  | String "0" (String _ _) => None
  | _ =>
      match rest with
      | String "." _ | String "e" _ | String "E" _ => None
      | _ =>
          match NilEmpty.uint_of_string ds with
          | Some u => Some (Z.of_int (if neg then Neg u else Pos u), rest)
          | None => None
          end
      end
  end.

(** [dict(pairs)]: a later pair with a key already present replaces the
    value and keeps the key's place. *)
Fixpoint dict_set (k : string) (v : json) (d : pydict) : pydict :=
  match d with
  | [] => [(k, v)]
  | (k', v') :: d' =>
      if String.eqb k' k then (k', v) :: d' else (k', v') :: dict_set k v d'
  end.

Definition dict_of_pairs (l : list (string * json)) : pydict :=
  fold_left (fun d kv => dict_set (fst kv) (snd kv) d) l [].

Fixpoint parse_value (fuel : nat) (s : string) : option (json * string) :=
  match fuel with
  | O => None
  | S fuel =>
      match s with
      | String "n" (String "u" (String "l" (String "l" r))) => Some (JNull, r)
      | String "t" (String "r" (String "u" (String "e" r))) => Some (JBool true, r)
      | String "f" (String "a" (String "l" (String "s" (String "e" r)))) =>
          Some (JBool false, r)
      | String "034" r =>
          match scan_string r with
          | Some (t, r') => Some (JStr t, r')
          | None => None
          end
      | String "[" r =>
          match skip_ws r with
          | String "]" r' => Some (JList [], r')
          | r0 =>
              match parse_items fuel r0 with
              | Some (l, r') => Some (JList l, r')
              | None => None
              end
          end
      | String "{" r =>
          match skip_ws r with
          | String "}" r' => Some (JDict [], r')
          | r0 =>
              match parse_members fuel r0 with
              | Some (l, r') => Some (JDict (dict_of_pairs l), r')
              | None => None
              end
          end
      | _ =>
          match scan_int s with
          | Some (n, r) => Some (JInt n, r)
          | None => None
          end
      end
  end

with parse_items (fuel : nat) (s : string) : option (list json * string) :=
  match fuel with
  | O => None
  | S fuel =>
      match parse_value fuel s with
      | Some (v, r) =>
          match skip_ws r with
          | String "]" r' => Some ([v], r')
          | String "," r' =>
              match parse_items fuel (skip_ws r') with
              | Some (l, r'') => Some (v :: l, r'')
              | None => None
              end
          | _ => None
          end
      | None => None
      end
  end

with parse_members (fuel : nat) (s : string)
  : option (list (string * json) * string) :=
  match fuel with
  | O => None
  | S fuel =>
      match s with
      | String "034" r =>
          match scan_string r with
          | Some (k, r1) =>
              match skip_ws r1 with
              | String ":" r2 =>
                  match parse_value fuel (skip_ws r2) with
                  | Some (v, r3) =>
                      match skip_ws r3 with
                      | String "}" r' => Some ([(k, v)], r')
                      | String "," r4 =>
                          match parse_members fuel (skip_ws r4) with
                          | Some (l, r') => Some ((k, v) :: l, r')
                          | None => None
                          end
                      | _ => None
                      end
                  | None => None
                  end
              | _ => None
              end
          | None => None
          end
      | _ => None
      end
  end.

(** [json.loads]: one value between optional whitespace, nothing after. *)
Definition loads (s : string) : option json :=
  match parse_value (S (String.length s)) (skip_ws s) with
  | Some (v, r) =>
      match skip_ws r with
      | EmptyString => Some v
      | _ => None
      end
  | None => None
  end.

(** *** Notions used to state that [loads] reads back [dumps] *)

(** A Python dictionary has one entry per key, at every depth. *)
#[local] Unset Elimination Schemes.
Inductive well_formed : json -> Prop :=
| wf_null : well_formed JNull
| wf_bool b : well_formed (JBool b)
| wf_int n : well_formed (JInt n)
| wf_str s : well_formed (JStr s)
| wf_list l : Forall well_formed l -> well_formed (JList l)
| wf_dict d :
    NoDup (List.map fst d) ->
    Forall (fun kv => well_formed (snd kv)) d ->
    well_formed (JDict d).
#[local] Set Elimination Schemes.

(** The fuel that reading a value back takes. *)
Section Weight.
Variable wt : json -> nat.

Fixpoint weight_items (l : list json) : nat :=
  match l with
  | [] => 0
  | x :: l' => S (wt x + weight_items l')
  end.

Fixpoint weight_members (d : list (string * json)) : nat :=
  match d with
  | [] => 0
  | (_, x) :: d' => S (wt x + weight_members d')
  end.
End Weight.

Fixpoint weight (v : json) : nat :=
  match v with
  | JList l => S (weight_items weight l)
  | JDict d => S (weight_members weight d)
  | _ => 1
  end.

(** What may follow an integer literal: not a digit, and not the start of
    a fraction or an exponent. *)
Definition int_end (rest : string) : bool :=
  match rest with
  | EmptyString => true
  | String c _ =>
      negb (is_digit c) && negb (Ascii.eqb c ".") && negb (Ascii.eqb c "e")
      && negb (Ascii.eqb c "E")
  end.

(** The first character of an integer literal. *)
Definition int_head (s : string) : bool :=
  match s with
  | EmptyString => false
  | String c _ => is_digit c || Ascii.eqb c "-"
  end.

(** The first character of an encoded value: no whitespace and no closing
    bracket. *)
Definition value_head (s : string) : bool :=
  match s with
  | EmptyString => false
  | String c _ =>
      negb (is_ws c) && negb (Ascii.eqb c "]") && negb (Ascii.eqb c "}")
  end.

(** [loads], given enough fuel, reads [v] back from what [dumps] wrote,
    whatever follows. *)
Definition reads_back (v : json) : Prop :=
  well_formed v ->
  forall fuel rest, weight v <= fuel -> int_end rest = true ->
    parse_value fuel (dumps v +:+ rest) = Some (v, rest).

End Json.

(** ** Rounding and sorting *)

(** Nearest integer, ties to the even one. *)
Definition round_half_even (q : Q) : Z :=
  let n := Qnum q in
  let d := Zpos (Qden q) in
  let f := (n / d)%Z in
  let r2 := (2 * (n mod d))%Z in
  if (r2 <? d)%Z then f
  else if (d <? r2)%Z then (f + 1)%Z
  else if Z.even f then f else (f + 1)%Z.

(** [round(x, 1)] *)
Definition round1 (x : Q) : Q := round_half_even (x * 10) # 10.

(** [l.sort(key=..., reverse=True)] for a key order [geb x y] ("the key of
    [x] is at least the key of [y]"): a stable sort, largest key first. *)
Section Sort.
Context {A : Type} (geb : A -> A -> bool).

Fixpoint insert_desc (x : A) (l : list A) : list A :=
  match l with
  | [] => [x]
  | y :: l' => if geb x y then x :: l else y :: insert_desc x l'
  end.

Definition sort_desc (l : list A) : list A := fold_right insert_desc [] l.
End Sort.

(** ** The [documents] table of the remote store *)

Module Row.
Record t : Type := mk {
  id : string;
  filename : option string;
  file_path : option string;
  upload_date : option string;
  file_type : option string;
  file_size : option Z;
  ocr_text : option string;
  summary_json : option string;
  metadata_json : option string
}.
End Row.

Definition table : Type := list Row.t.

(** [upsert(data)]: the row with the primary key of [data] is replaced where
    it stands; without such a row, [data] is added. *)
Fixpoint upsert (data : Row.t) (t : table) : table :=
  match t with
  | [] => [data]
  | r :: t' =>
      if String.eqb (Row.id r) (Row.id data) then data :: t'
      else r :: upsert data t'
  end.

(** [select(...).eq("id", doc_id)] *)
Definition select_eq (doc_id : string) (t : table) : list Row.t :=
  List.filter (fun r => String.eqb (Row.id r) doc_id) t.

(** [delete().eq("id", doc_id)] *)
Definition delete_eq (doc_id : string) (t : table) : table :=
  List.filter (fun r => negb (String.eqb (Row.id r) doc_id)) t.

(** The order of [order("upload_date", desc=True)]: timestamps in ISO-8601
    text compare as text, and [NULL] sorts before every value when the order
    is descending. *)
Definition date_geb (a b : option string) : bool :=
  match a, b with
  | None, _ => true
  | Some _, None => false
  | Some x, Some y => String.leb y x
  end.

Definition select_order_desc (t : table) : list Row.t :=
  sort_desc (fun a b => date_geb (Row.upload_date a) (Row.upload_date b)) t.

(** The primary-key constraint on [id]. *)
Definition pk_unique (t : table) : Prop := NoDup (List.map Row.id t).

(** ** The process and its environment *)

Record client : Type := { client_url : string; client_key : string }.

(** [supabase] is the module's global handle; [create_client] is the
    constructor of the client library ([None]: it raised); [documents] is
    the remote table; [now] is the reading of the clock as
    [datetime.now().isoformat()]; [faults] tells, for the remote calls to
    come, which of them raise ([true]) instead of running. *)
Record world : Type := {
  SUPABASE_URL : string;
  SUPABASE_KEY : string;
  create_client : string -> string -> option client;
  supabase : option client;
  documents : table;
  now : string;
  faults : list bool
}.

Definition set_supabase (c : option client) (w : world) : world :=
  {| SUPABASE_URL := SUPABASE_URL w; SUPABASE_KEY := SUPABASE_KEY w;
     create_client := create_client w; supabase := c;
     documents := documents w; now := now w; faults := faults w |}.

Definition set_documents (t : table) (w : world) : world :=
  {| SUPABASE_URL := SUPABASE_URL w; SUPABASE_KEY := SUPABASE_KEY w;
     create_client := create_client w; supabase := supabase w;
     documents := t; now := now w; faults := faults w |}.

Definition set_faults (f : list bool) (w : world) : world :=
  {| SUPABASE_URL := SUPABASE_URL w; SUPABASE_KEY := SUPABASE_KEY w;
     create_client := create_client w; supabase := supabase w;
     documents := documents w; now := now w; faults := f |}.

Definition at_time (t : string) (w : world) : world :=
  {| SUPABASE_URL := SUPABASE_URL w; SUPABASE_KEY := SUPABASE_KEY w;
     create_client := create_client w; supabase := supabase w;
     documents := documents w; now := t; faults := faults w |}.

(** A computation that may raise: the body of a [try] block. *)
Inductive outcome (A : Type) : Type :=
| Ok (a : A)
| Raise.
Arguments Ok {A} a.
Arguments Raise {A}.

Definition Py (A : Type) : Type := world -> outcome A * world.

Definition ret {A} (a : A) : Py A := fun w => (Ok a, w).

Definition bind {A B} (m : Py A) (k : A -> Py B) : Py B :=
  fun w =>
    match m w with
    | (Ok a, w') => k a w'
    | (Raise, w') => (Raise, w')
    end.

Notation "'do' x <- m 'in' k" := (bind m (fun x => k))
  (at level 10, x name, m at level 99, k at level 200).

(** A library call that raises when it has no result. *)
Definition lift {A} (o : option A) : Py A :=
  fun w => match o with Some a => (Ok a, w) | None => (Raise, w) end.

(** [try: body / except Exception: return fallback] *)
Definition try_except {A} (body : Py A) (fallback : A) (w : world) : A * world :=
  match body w with
  | (Ok a, w') => (a, w')
  | (Raise, w') => (fallback, w')
  end.

(** Whether the next remote call raises. *)
Definition call_fails (w : world) : bool :=
  match faults w with
  | true :: _ => true
  | _ => false
  end.

(** [....execute()]: one remote call.  It raises when the next entry of
    [faults] says so, and then leaves the table as it is. *)
Definition execute {A} (q : table -> A * table) : Py A :=
  fun w =>
    let w' := set_faults (tl (faults w)) w in
    if call_fails w then (Raise, w')
    else let '(a, t) := q (documents w) in (Ok a, set_documents t w').

Definition datetime_now : Py string := fun w => (Ok (now w), w).

(** ** [get_supabase_client] *)

(** The handle is built on the first call that finds both settings, and
    kept; a failed construction is reported and leaves the handle unset. *)
Definition get_supabase_client (w : world) : option client * world :=
  match supabase w with
  | None =>
      if str_truthy (SUPABASE_URL w) && str_truthy (SUPABASE_KEY w) then
        match create_client w (SUPABASE_URL w) (SUPABASE_KEY w) with
        | Some c => (Some c, set_supabase (Some c) w)
        | None => (None, w)
        end
      else (None, w)
  | Some c => (Some c, w)
  end.

(** The store is available when the client handle can be had. *)
Definition is_available (w : world) : bool :=
  match fst (get_supabase_client w) with
  | Some _ => true
  | None => false
  end.

(** ** [save_document] *)

(** [file_type or fallback] *)
Definition str_or (a : option string) (fallback : string) : string :=
  match a with
  | Some s => if str_truthy s then s else fallback
  | None => fallback
  end.

(** [d or {}] *)
Definition dict_or_empty (d : option Json.pydict) : Json.pydict :=
  match d with
  | Some m => m
  | None => []
  end.

(** The [data] dictionary that [save_document] sends, for the reading
    [upload] of the clock. *)
Definition document_row (doc_id filename file_path ocr_text : string)
    (file_type : option string) (file_size : Z)
    (summary metadata : option Json.pydict) (upload : string) : Row.t :=
  {| Row.id := doc_id;
     Row.filename := Some filename;
     Row.file_path := Some file_path;
     Row.upload_date := Some upload;
     Row.file_type := Some (str_or file_type (PyStr.lower (path_suffix filename)));
     Row.file_size := Some file_size;
     Row.ocr_text := Some ocr_text;
     Row.summary_json := Some (Json.dumps (Json.JDict (dict_or_empty summary)));
     Row.metadata_json := Some (Json.dumps (Json.JDict (dict_or_empty metadata))) |}.

Definition save_document (doc_id filename file_path ocr_text : string)
    (file_type : option string) (file_size : Z)
    (summary metadata : option Json.pydict) (w : world) : bool * world :=
  let '(client, w) := get_supabase_client w in
  match client with
  | None => (false, w)
  | Some _ =>
      try_except
        (do upload <- datetime_now in
         let data :=
           document_row doc_id filename file_path ocr_text file_type file_size
             summary metadata upload in
         do _ <- execute (fun t => (tt, upsert data t)) in
         ret true)
        false w
  end.

(** ** [get_all_documents_from_db] *)

Module Preview.
Record t : Type := mk {
  doc_id : string;
  filename : option string;
  file_path : option string;
  upload_date : option string;
  file_type : option string;
  file_size : option Z;
  text_preview : option string;
  word_count : nat;
  title : string
}.
End Preview.

(** [(text[:300] + '...') if text and len(text) > 300 else text] *)
Definition text_preview_of (text : option string) : option string :=
  match text with
  | Some s =>
      if str_truthy s && (300 <? String.length s)
      then Some (PyStr.take 300 s +:+ "...") else Some s
  | None => None
  end.

(** [len(text.split()) if text else 0] *)
Definition word_count_of (text : option string) : nat :=
  match text with
  | Some s => if str_truthy s then List.length (PyStr.split s) else 0
  | None => 0
  end.

(** [row.get('filename') or row['id']] *)
Definition title_of (row : Row.t) : string :=
  str_or (Row.filename row) (Row.id row).

Definition preview_of (row : Row.t) : Preview.t :=
  {| Preview.doc_id := Row.id row;
     Preview.filename := Row.filename row;
     Preview.file_path := Row.file_path row;
     Preview.upload_date := Row.upload_date row;
     Preview.file_type := Row.file_type row;
     Preview.file_size := Row.file_size row;
     Preview.text_preview := text_preview_of (Row.ocr_text row);
     Preview.word_count := word_count_of (Row.ocr_text row);
     Preview.title := title_of row |}.

Definition get_all_documents_from_db (w : world) : list Preview.t * world :=
  let '(client, w) := get_supabase_client w in
  match client with
  | None => ([], w)
  | Some _ =>
      try_except
        (do rows <- execute (fun t => (select_order_desc t, t)) in
         ret (List.map preview_of rows))
        [] w
  end.

(** ** [get_document_by_id] *)

Module Document.
Record t : Type := mk {
  doc_id : string;
  filename : option string;
  file_path : option string;
  upload_date : option string;
  file_type : option string;
  file_size : option Z;
  full_text : option string;
  word_count : nat;
  title : string;
  summary : Json.json;
  metadata : Json.json
}.
End Document.

(** [json.loads(text) if text else {}] *)
Definition loads_or_empty (text : option string) : Py Json.json :=
  if opt_truthy text then lift (Json.loads (default EmptyString text))
  else ret (Json.JDict []).

(** The value of [loads_or_empty], [None] when [json.loads] raises. *)
Definition decoded (text : option string) : option Json.json :=
  if opt_truthy text then Json.loads (default EmptyString text)
  else Some (Json.JDict []).

(** The dictionary that [get_document_by_id] returns for a row and its two
    decoded maps. *)
Definition document_of_row (row : Row.t) (summary metadata : Json.json)
  : Document.t :=
  {| Document.doc_id := Row.id row;
     Document.filename := Row.filename row;
     Document.file_path := Row.file_path row;
     Document.upload_date := Row.upload_date row;
     Document.file_type := Row.file_type row;
     Document.file_size := Row.file_size row;
     Document.full_text := Row.ocr_text row;
     Document.word_count := word_count_of (Row.ocr_text row);
     Document.title := title_of row;
     Document.summary := summary;
     Document.metadata := metadata |}.

Definition get_document_by_id (doc_id : string) (w : world)
  : option Document.t * world :=
  let '(client, w) := get_supabase_client w in
  match client with
  | None => (None, w)
  | Some _ =>
      try_except
        (do rows <- execute (fun t => (select_eq doc_id t, t)) in
         match rows with
         | row :: _ =>
             do summary <- loads_or_empty (Row.summary_json row) in
             do metadata <- loads_or_empty (Row.metadata_json row) in
             ret (Some (document_of_row row summary metadata))
         | [] => ret None
         end)
        None w
  end.

(** ** [delete_document] *)

Definition delete_document (doc_id : string) (w : world) : bool * world :=
  let '(client, w) := get_supabase_client w in
  match client with
  | None => (false, w)
  | Some _ =>
      try_except
        (do _ <- execute (fun t => (tt, delete_eq doc_id t)) in
         ret true)
        false w
  end.

(** ** [find_similar_documents] *)

Module Match.
Record t : Type := mk {
  doc_id : string;
  filename : option string;
  similarity : Q
}.
End Match.

(** The loop over the stored rows: a row with no text, or with fewer than
    ten distinct words, is passed over.  The selection names the column
    [filename], so that every row has the key and the default ['Unknown']
    of [row.get] is never used: a [NULL] file name comes out as [None]. *)
Fixpoint similar_docs (new_words : gset string) (threshold : Q)
    (rows : list Row.t) : list Match.t :=
  match rows with
  | [] => []
  | row :: rest =>
      match Row.ocr_text row with
      | None => similar_docs new_words threshold rest
      | Some existing_text =>
          if negb (str_truthy existing_text)
          then similar_docs new_words threshold rest
          else
            let existing_words := word_set existing_text in
            if size existing_words <? 10
            then similar_docs new_words threshold rest
            else
              let intersection := size (new_words ∩ existing_words) in
              let union := size (new_words ∪ existing_words) in
              if 0 <? union then
                let similarity := Z.of_nat intersection # Pos.of_nat union in
                if Qle_bool threshold similarity then
                  {| Match.doc_id := Row.id row;
                     Match.filename := Row.filename row;
                     Match.similarity := round1 (similarity * 100) |}
                  :: similar_docs new_words threshold rest
                else similar_docs new_words threshold rest
              else similar_docs new_words threshold rest
      end
  end.

(** [x['similarity']] of one match is at least that of the other. *)
Definition similarity_geb (x y : Match.t) : bool :=
  Qle_bool (Match.similarity y) (Match.similarity x).

Definition find_similar_documents (new_text : string) (threshold : Q)
    (w : world) : list Match.t * world :=
  let '(client, w) := get_supabase_client w in
  match client with
  | None => ([], w)
  | Some _ =>
      if negb (str_truthy new_text) then ([], w)
      else
        try_except
          (do rows <- execute (fun t => (t, t)) in
           match rows with
           | [] => ret []
           | _ :: _ =>
               let new_words := word_set new_text in
               if size new_words <? 10 then ret []
               else
                 ret (firstn 5
                        (sort_desc similarity_geb
                           (similar_docs new_words threshold rows)))
           end)
          [] w
  end.

(** *** The matcher as the specification words it

    Tokenise and case-fold the candidate; pass over the stored documents
    with fewer than ten distinct tokens; score each remaining one by the
    Jaccard similarity of the two token sets; keep the scores that reach
    the threshold; report them as percentages rounded to one decimal; sort
    by them, largest first; return the first five. *)

(** The Jaccard similarity of two token sets whose union is not empty:
    the size of the intersection over the size of the union. *)
Definition jaccard (a b : gset string) : Q :=
  Z.of_nat (size (a ∩ b)) # Pos.of_nat (size (a ∪ b)).

(** The token set of a stored document; a missing text has no token. *)
Definition row_words (row : Row.t) : gset string :=
  match Row.ocr_text row with
  | Some text => word_set text
  | None => ∅
  end.

Definition eligible (row : Row.t) : bool := 10 <=? size (row_words row).

Definition kept (new_words : gset string) (threshold : Q) (row : Row.t) : bool :=
  eligible row && Qle_bool threshold (jaccard new_words (row_words row)).

Definition match_of (new_words : gset string) (row : Row.t) : Match.t :=
  {| Match.doc_id := Row.id row;
     Match.filename := Row.filename row;
     Match.similarity := round1 (jaccard new_words (row_words row) * 100) |}.

Definition find_similar_spec (new_text : string) (threshold : Q)
    (rows : list Row.t) : list Match.t :=
  let new_words := word_set new_text in
  firstn 5
    (sort_desc similarity_geb
       (List.map (match_of new_words)
          (List.filter (kept new_words threshold) rows))).

(** The default [threshold]. *)
Definition default_threshold : Q := 7 # 10.

(** ** Sample worlds *)

Definition sample_create_client (url key : string) : option client :=
  Some {| client_url := url; client_key := key |}.


(** A configured process in front of an empty table. *)
Definition sample_world : world :=
  {| SUPABASE_URL := "https://project.example";
     SUPABASE_KEY := "service-key";
     create_client := sample_create_client;
     supabase := None;
     documents := [];
     now := "2024-05-01T10:00:00";
     faults := [] |}.

(** The same process without its two settings. *)
Definition unconfigured_world : world :=
  {| SUPABASE_URL := EmptyString;
     SUPABASE_KEY := EmptyString;
     create_client := sample_create_client;
     supabase := None;
     documents := [];
     now := "2024-05-01T10:00:00";
     faults := [] |}.

(** The configured process when its next remote call fails. *)
Definition faulty_world : world := set_faults [true] sample_world.

(** A stocked table: two versions of a notice, and a memo too short to be
    compared. *)
Definition sample_text : string :=
  "Notice of transfer for the records office effective from the first of June".

Definition sample_rows : table :=
  [ document_row "a" "notice.txt" "/uploads/notice.txt" sample_text None 74
      None None "2024-05-01T10:00:00";
    document_row "b" "notice-v2.txt" "/uploads/notice-v2.txt"
      "NOTICE of transfer for the records office effective from the first of July 2024"
      None 79 None None "2024-05-03T08:15:00";
    document_row "c" "memo.txt" "/uploads/memo.txt" "transfer notice" None 15
      None None "2024-05-02T17:40:00" ].

Definition stocked_world : world := set_documents sample_rows sample_world.

(** ** The local store of the legacy modules ([init_db], [_init_sqlite])

    The SQLite file [data/digifest.db] is a finite map from table names to
    tables; a missing file and an empty database are the same thing to the
    code.  Errors of the file system are left out. *)

Module Sqlite.

Inductive sql_type : Type := TEXT | INTEGER.

Record column : Type := {
  col_name : string;
  col_type : sql_type;
  primary_key : bool;
  autoincrement : bool;
  not_null : bool;
  default_value : option string
}.

(** [FOREIGN KEY (fk_column) REFERENCES fk_table (fk_target)] *)
Record foreign_key : Type := {
  fk_column : string;
  fk_table : string;
  fk_target : string;
  on_delete_cascade : bool
}.

Record schema : Type := {
  columns : list column;
  foreign_keys : list foreign_key
}.

Inductive value : Type :=
| VNull
| VText (s : string)
| VInt (n : Z).

Record stored_table : Type := {
  definition : schema;
  rows : list (list value)
}.

Abbreviation database := (gmap string stored_table).

(** The directory [data/] and the database file in it. *)
Record disk : Type := {
  data_dir : bool;
  db_file : database
}.

(** An open connection: its [foreign_keys] setting and its view of the
    database, written back by [commit]. *)
Record connection : Type := {
  conn_foreign_keys : bool;
  conn_db : database
}.

Definition text (name : string) : column :=
  {| col_name := name; col_type := TEXT; primary_key := false;
     autoincrement := false; not_null := false; default_value := None |}.

Definition text_key (name : string) : column :=
  {| col_name := name; col_type := TEXT; primary_key := true;
     autoincrement := false; not_null := false; default_value := None |}.

Definition text_not_null (name : string) : column :=
  {| col_name := name; col_type := TEXT; primary_key := false;
     autoincrement := false; not_null := true; default_value := None |}.

Definition text_default (name value : string) : column :=
  {| col_name := name; col_type := TEXT; primary_key := false;
     autoincrement := false; not_null := false; default_value := Some value |}.

Definition grievances : schema :=
  {| columns :=
       [ text_key "id"; text_not_null "subject"; text "details";
         text_default "priority" "normal"; text_default "status" "pending";
         text "submitted_date"; text "due_date"; text "resolved_date";
         text "department"; text "citizen_name"; text "contact";
         text "source_doc_id"; text "updates_json" ];
     foreign_keys := [] |}.

Definition workflows : schema :=
  {| columns :=
       [ text_key "doc_id"; text "title"; text "current_status";
         text "created_at"; text "updated_at"; text "priority";
         text "expected_completion" ];
     foreign_keys := [] |}.

Definition workflow_steps : schema :=
  {| columns :=
       [ {| col_name := "id"; col_type := INTEGER; primary_key := true;
            autoincrement := true; not_null := false; default_value := None |};
         text_not_null "doc_id"; text_not_null "status"; text "timestamp";
         text "officer"; text "remarks" ];
     foreign_keys :=
       [ {| fk_column := "doc_id"; fk_table := "workflows";
            fk_target := "doc_id"; on_delete_cascade := true |} ] |}.

(** [CREATE TABLE IF NOT EXISTS name (...)]: a table of that name, whatever
    its definition, is left as it is. *)
Definition create_table_if_not_exists (name : string) (s : schema)
    (conn : connection) : connection :=
  {| conn_foreign_keys := conn_foreign_keys conn;
     conn_db :=
       match conn_db conn !! name with
       | Some _ => conn_db conn
       | None => <[name := {| definition := s; rows := [] |}]> (conn_db conn)
       end |}.

(** [PRAGMA foreign_keys = ON] *)
Definition pragma_foreign_keys_on (conn : connection) : connection :=
  {| conn_foreign_keys := true; conn_db := conn_db conn |}.

(** [get_db_connection]: makes [data/] when it is missing, then opens the
    file. *)
Definition get_db_connection (d : disk) : connection * disk :=
  ({| conn_foreign_keys := false; conn_db := db_file d |},
   {| data_dir := true; db_file := db_file d |}).

(** [conn.commit()], then [conn.close()] *)
Definition commit_and_close (conn : connection) (d : disk) : disk :=
  {| data_dir := data_dir d; db_file := conn_db conn |}.

Definition _init_sqlite (d : disk) : disk :=
  let '(conn, d) := get_db_connection d in
  let c := pragma_foreign_keys_on conn in
  let c := create_table_if_not_exists "grievances" grievances c in
  let c := create_table_if_not_exists "workflows" workflows c in
  let c := create_table_if_not_exists "workflow_steps" workflow_steps c in
  commit_and_close c d.

End Sqlite.

(** [init_db]: nothing but a message when the remote store is there,
    the local schema otherwise. *)
Definition init_db (w : world) (d : Sqlite.disk) : world * Sqlite.disk :=
  let '(client, w) := get_supabase_client w in
  match client with
  | Some _ => (w, d)
  | None => (w, Sqlite._init_sqlite d)
  end.

(** A disk on which the legacy modules already keep one workflow, in a
    table whose definition is older than the one [_init_sqlite] writes. *)
Definition sample_disk : Sqlite.disk :=
  {| Sqlite.data_dir := true;
     Sqlite.db_file :=
       {[ "workflows" :=
            {| Sqlite.definition :=
                 {| Sqlite.columns := [Sqlite.text_key "doc_id"; Sqlite.text "title"];
                    Sqlite.foreign_keys := [] |};
               Sqlite.rows := [[Sqlite.VText "d1"; Sqlite.VText "Transfer order"]] |} ]} |}.



(** * Properties *)

(** ** Examples *)

Example path_suffix_pdf : PyStr.lower (path_suffix "scans/Report.V2.PDF") = ".pdf".
Proof. reflexivity. Qed.

Example path_suffix_hidden : path_suffix ".bashrc" = "".
Proof. reflexivity. Qed.

Example split_ex : PyStr.split "  alpha beta
 gamma  " = ["alpha"; "beta"; "gamma"].
Proof. reflexivity. Qed.

Example word_set_ex : size (word_set "The the THE cat") = 2%nat.
Proof. vm_compute. reflexivity. Qed.

Import Json.

Example dumps_ex :
  dumps (JDict [("title", JStr "Leave A
x"); ("pages", JInt (-12)); ("tags", JList [JNull; JBool true; JDict []])])
  = "{" +:+ encode_str "title" +:+ ": " +:+ String "034" "Leave A\nx"
    +:+ String "034" ", " +:+ encode_str "pages" +:+ ": -12, "
    +:+ encode_str "tags" +:+ ": [null, true, {}]}".
Proof. reflexivity. Qed.

Example loads_ex :
  loads (" {" +:+ encode_str "a" +:+ " : [1, -20 ,null] ," +:+ encode_str "b"
         +:+ ":{}, " +:+ encode_str "a" +:+ ": " +:+ String "034" "x\u0041\t"
         +:+ String "034" "}")
  = Some (JDict [("a", JStr (String "x" (String "A" (String "009" "")))); ("b", JDict [])]).
Proof. vm_compute. reflexivity. Qed.

Example loads_float : loads "[1.5]" = None.
Proof. reflexivity. Qed.

Example loads_leading_zero : loads "[01]" = None.
Proof. reflexivity. Qed.


Example find_similar_ex :
  List.map (fun m => (Match.doc_id m, Match.similarity m))
    (fst (find_similar_documents sample_text default_threshold stocked_world))
  = [("a", 1000 # 10); ("b", 769 # 10)].
Proof. vm_compute. reflexivity. Qed.

Example round1_tie_ex : round1 (625 # 100) = 62 # 10.
Proof. reflexivity. Qed.

Example listing_order_ex :
  List.map Preview.doc_id (fst (get_all_documents_from_db stocked_world))
  = ["b"; "c"; "a"].
Proof. reflexivity. Qed.

(** ** The client handle *)

Lemma get_supabase_client_env w :
  documents (snd (get_supabase_client w)) = documents w
  /\ faults (snd (get_supabase_client w)) = faults w
  /\ now (snd (get_supabase_client w)) = now w.
Proof.
  unfold get_supabase_client.
  destruct (supabase w); [done|].
  destruct (str_truthy (SUPABASE_URL w) && str_truthy (SUPABASE_KEY w)); [|done].
  by destruct (create_client w (SUPABASE_URL w) (SUPABASE_KEY w)).
Qed.

Lemma get_supabase_client_call_fails w :
  call_fails (snd (get_supabase_client w)) = call_fails w.
Proof.
  unfold call_fails. by rewrite (proj1 (proj2 (get_supabase_client_env w))).
Qed.

(** Once the handle is had it is kept: a second call returns it again. *)
Lemma get_supabase_client_cached w c :
  fst (get_supabase_client w) = Some c ->
  get_supabase_client (snd (get_supabase_client w))
  = (Some c, snd (get_supabase_client w)).
Proof.
  unfold get_supabase_client.
  destruct (supabase w) eqn:Hs; simpl.
  - intros [= ->]. by rewrite Hs.
  - destruct (str_truthy (SUPABASE_URL w) && str_truthy (SUPABASE_KEY w)); [|done].
    destruct (create_client w (SUPABASE_URL w) (SUPABASE_KEY w)); [|done].
    by intros [= ->].
Qed.

Lemma is_available_false w :
  is_available w = false <-> fst (get_supabase_client w) = None.
Proof.
  unfold is_available. destruct (fst (get_supabase_client w)); split; congruence.
Qed.

(** ** What each operation returns

    Each of the five operations, split by whether the handle is available
    and whether the remote call raises. *)

Lemma save_document_result doc_id filename file_path ocr_text file_type
    file_size summary metadata w :
  fst (save_document doc_id filename file_path ocr_text file_type file_size
         summary metadata w)
  = is_available w && negb (call_fails w).
Proof.
  unfold save_document, is_available.
  pose proof (get_supabase_client_call_fails w) as Hf.
  destruct (get_supabase_client w) as [[c|] w1]; simpl in *; [|done].
  unfold try_except, bind, datetime_now, execute, ret. rewrite Hf.
  by destruct (call_fails w).
Qed.

Lemma delete_document_result doc_id w :
  fst (delete_document doc_id w) = is_available w && negb (call_fails w).
Proof.
  unfold delete_document, is_available.
  pose proof (get_supabase_client_call_fails w) as Hf.
  destruct (get_supabase_client w) as [[c|] w1]; simpl in *; [|done].
  unfold try_except, bind, execute, ret. rewrite Hf.
  by destruct (call_fails w).
Qed.

Lemma get_all_documents_from_db_result w :
  fst (get_all_documents_from_db w)
  = if is_available w && negb (call_fails w)
    then List.map preview_of (select_order_desc (documents w)) else [].
Proof.
  unfold get_all_documents_from_db, is_available.
  pose proof (get_supabase_client_call_fails w) as Hf.
  pose proof (proj1 (get_supabase_client_env w)) as Hd.
  destruct (get_supabase_client w) as [[c|] w1]; simpl in *; [|done].
  unfold try_except, bind, execute, ret. rewrite Hf, Hd.
  by destruct (call_fails w).
Qed.

Lemma get_document_by_id_unavailable doc_id w :
  is_available w && negb (call_fails w) = false ->
  fst (get_document_by_id doc_id w) = None.
Proof.
  unfold get_document_by_id, is_available.
  pose proof (get_supabase_client_call_fails w) as Hf.
  destruct (get_supabase_client w) as [[c|] w1]; simpl in *; [|done].
  unfold try_except, bind, execute, ret. rewrite Hf.
  destruct (call_fails w); [done|]. discriminate.
Qed.

Lemma find_similar_documents_unavailable new_text threshold w :
  is_available w && negb (call_fails w) = false ->
  fst (find_similar_documents new_text threshold w) = [].
Proof.
  unfold find_similar_documents, is_available.
  pose proof (get_supabase_client_call_fails w) as Hf.
  destruct (get_supabase_client w) as [[c|] w1]; simpl in *; [|done].
  destruct (negb (str_truthy new_text)); [done|].
  unfold try_except, bind, execute, ret. rewrite Hf.
  destruct (call_fails w); [done|]. discriminate.
Qed.

(** ** Degradation *)

(** C3. When the primary store is unavailable, or when the remote call
    fails on an available connection, [save_document] returns [False],
    [get_all_documents_from_db] the empty list, [get_document_by_id] [None],
    [delete_document] [False] and [find_similar_documents] the empty list.
    Each of the five is a total function to its sentinel type: what the
    body of its [try] block raises ends in the [except] branch. *)
Theorem degraded_store_sentinels (w : world) :
  is_available w = false \/ call_fails w = true ->
  (forall doc_id filename file_path ocr_text file_type file_size summary metadata,
      fst (save_document doc_id filename file_path ocr_text file_type
             file_size summary metadata w) = false)
  /\ fst (get_all_documents_from_db w) = []
  /\ (forall doc_id, fst (get_document_by_id doc_id w) = None)
  /\ (forall doc_id, fst (delete_document doc_id w) = false)
  /\ (forall new_text threshold,
        fst (find_similar_documents new_text threshold w) = []).
Proof.
  intros Hdown.
  assert (is_available w && negb (call_fails w) = false) as Hoff.
  { destruct Hdown as [-> | ->]; [done|]. apply andb_false_r. }
  repeat split; intros.
  - by rewrite save_document_result.
  - by rewrite get_all_documents_from_db_result, Hoff.
  - by apply get_document_by_id_unavailable.
  - by rewrite delete_document_result.
  - by apply find_similar_documents_unavailable.
Qed.

Lemma degraded_store_sentinels_witness :
  (is_available unconfigured_world = false
   /\ fst (get_all_documents_from_db unconfigured_world) = []
   /\ fst (get_document_by_id "d1" unconfigured_world) = None)
  /\ (is_available faulty_world = true /\ call_fails faulty_world = true
      /\ fst (delete_document "d1" faulty_world) = false
      /\ fst (find_similar_documents "a b c d e f g h i j k" default_threshold
                faulty_world) = []).
Proof.
  split.
  - split; [reflexivity|].
    pose proof (degraded_store_sentinels unconfigured_world (or_introl eq_refl))
      as (_ & Hlist & Hget & _).
    split; [exact Hlist | exact (Hget "d1")].
  - split; [reflexivity|]. split; [reflexivity|].
    pose proof (degraded_store_sentinels faulty_world (or_intror eq_refl))
      as (_ & _ & _ & Hdel & Hfind).
    split; [exact (Hdel "d1") | exact (Hfind _ _)].
Defined.

(** ** The world after each operation *)

Lemma is_available_set_documents t w :
  is_available (set_documents t w) = is_available w.
Proof.
  unfold is_available, get_supabase_client. cbn.
  by repeat case_match.
Qed.

Lemma is_available_set_faults f w :
  is_available (set_faults f w) = is_available w.
Proof.
  unfold is_available, get_supabase_client. cbn.
  by repeat case_match.
Qed.

Lemma is_available_at_time t w :
  is_available (at_time t w) = is_available w.
Proof.
  unfold is_available, get_supabase_client. cbn.
  by repeat case_match.
Qed.

Lemma is_available_get_supabase_client w :
  is_available (snd (get_supabase_client w)) = is_available w.
Proof.
  unfold is_available.
  destruct (fst (get_supabase_client w)) as [c|] eqn:Hc.
  - by rewrite (get_supabase_client_cached w c Hc).
  - revert Hc. unfold get_supabase_client.
    destruct (supabase w) eqn:Hs; [done|].
    destruct (str_truthy (SUPABASE_URL w) && str_truthy (SUPABASE_KEY w)) eqn:Hk;
      cbn; [|by rewrite Hs, Hk].
    destruct (create_client w (SUPABASE_URL w) (SUPABASE_KEY w)) eqn:Hm;
      cbn; [done|]. by rewrite Hs, Hk, Hm.
Qed.

(** The handle, the fault list, the table and the answer after one
    guarded remote call [q], which may use the reading of the clock: the
    shape the operations share. *)
Lemma guarded_call_world {A B} (q : string -> table -> A * table)
    (k : A -> B) (fallback : B) (w : world) :
  let run (w0 : world) :=
    let '(client, w1) := get_supabase_client w0 in
    match client with
    | None => (fallback, w1)
    | Some _ =>
        try_except
          (do t <- datetime_now in do a <- execute (q t) in ret (k a))
          fallback w1
    end in
  is_available (snd (run w)) = is_available w
  /\ faults (snd (run w)) = (if is_available w then tl (faults w) else faults w)
  /\ now (snd (run w)) = now w
  /\ documents (snd (run w))
     = (if is_available w && negb (call_fails w)
        then snd (q (now w) (documents w)) else documents w)
  /\ fst (run w)
     = (if is_available w && negb (call_fails w)
        then k (fst (q (now w) (documents w))) else fallback).
Proof.
  cbn zeta.
  pose proof (is_available_get_supabase_client w) as Ha.
  pose proof (get_supabase_client_call_fails w) as Hf.
  destruct (get_supabase_client_env w) as (Hd & Hfl & Hn).
  remember (is_available w) as av eqn:Hav. unfold is_available in Hav.
  destruct (get_supabase_client w) as [[c|] w1]; cbn [fst snd] in *; subst av.
  - unfold try_except, bind, datetime_now, execute, ret. rewrite Hf, Hd, Hfl, Hn.
    destruct (call_fails w); cbn [negb andb fst snd].
    + by rewrite is_available_set_faults.
    + destruct (q (now w) (documents w)) as [a t]; cbn [fst snd].
      by rewrite is_available_set_documents, is_available_set_faults.
  - done.
Qed.

Lemma save_document_world doc_id filename file_path ocr_text file_type
    file_size summary metadata w :
  let w' := snd (save_document doc_id filename file_path ocr_text file_type
                   file_size summary metadata w) in
  is_available w' = is_available w
  /\ faults w' = (if is_available w then tl (faults w) else faults w)
  /\ now w' = now w
  /\ documents w'
     = if is_available w && negb (call_fails w)
       then upsert (document_row doc_id filename file_path ocr_text file_type
                      file_size summary metadata (now w)) (documents w)
       else documents w.
Proof.
  destruct (guarded_call_world
              (fun t tb => (tt, upsert (document_row doc_id filename file_path
                 ocr_text file_type file_size summary metadata t) tb))
              (fun _ => true) false w) as (H1 & H2 & H3 & H4 & _).
  repeat split; [exact H1 | exact H2 | exact H3 | exact H4].
Qed.

Lemma delete_document_world doc_id w :
  let w' := snd (delete_document doc_id w) in
  is_available w' = is_available w
  /\ faults w' = (if is_available w then tl (faults w) else faults w)
  /\ now w' = now w
  /\ documents w'
     = if is_available w && negb (call_fails w)
       then delete_eq doc_id (documents w) else documents w.
Proof.
  destruct (guarded_call_world (fun _ tb => (tt, delete_eq doc_id tb))
              (fun _ => true) false w) as (H1 & H2 & H3 & H4 & _).
  repeat split; [exact H1 | exact H2 | exact H3 | exact H4].
Qed.

(** ** JSON: [loads] reads back what [dumps] writes *)

Section JsonRoundTrip.
Import Json.

Lemma append_cons (x : ascii) (a b : string) :
  String x a +:+ b = String x (a +:+ b).
Proof. reflexivity. Qed.

Lemma append_nil (b : string) : EmptyString +:+ b = b.
Proof. reflexivity. Qed.

Lemma append_assoc (a b c : string) : (a +:+ b) +:+ c = a +:+ b +:+ c.
Proof.
  induction a as [|x a IH]; [done|]. by rewrite !append_cons, IH.
Qed.

Lemma length_append (a b : string) :
  String.length (a +:+ b) = String.length a + String.length b.
Proof.
  induction a as [|x a IH]; [done|].
  rewrite append_cons. cbn [String.length]. by rewrite IH.
Qed.

(** *** String literals *)

Lemma scan_string_escape_char (c : ascii) (t : string) :
  scan_string (escape_char c +:+ t)
  = match scan_string t with
    | Some (u, r) => Some (String c u, r)
    | None => None
    end.
Proof. destruct c as [[] [] [] [] [] [] [] []]; reflexivity. Qed.

Lemma scan_string_escape (s rest : string) :
  scan_string (escape s +:+ String "034" rest) = Some (s, rest).
Proof.
  induction s as [|c s IH]; [done|].
  cbn [escape]. by rewrite append_assoc, scan_string_escape_char, IH.
Qed.

Lemma scan_string_encode_str (s rest : string) :
  scan_string (escape s +:+ String "034" EmptyString +:+ rest) = Some (s, rest).
Proof. apply scan_string_escape. Qed.

(** *** Integer literals *)

Lemma scan_digits_uint (u : uint) (rest : string) :
  int_end rest = true ->
  scan_digits (NilEmpty.string_of_uint u +:+ rest)
  = (NilEmpty.string_of_uint u, rest).
Proof.
  intros Hend. induction u; cbn [NilEmpty.string_of_uint];
    try (rewrite append_cons; cbn [scan_digits]; rewrite IHu; reflexivity).
  rewrite append_nil. destruct rest as [|c r]; [done|].
  cbn [scan_digits]. cbn [int_end] in Hend.
  by destruct (is_digit c).
Qed.

Lemma to_uint_leading (p : positive) :
  match Pos.to_uint p with
  | Nil | D0 _ => False
  | _ => True
  end.
Proof.
  pose proof (DecimalPos.Unsigned.to_uint_nonzero p) as Hnz.
  pose proof (DecimalPos.Unsigned.to_of (Pos.to_uint p)) as Hn.
  rewrite DecimalPos.Unsigned.of_to in Hn. cbn in Hn.
  pose proof (nzhead_nonzero (Pos.to_uint p)) as Hh.
  unfold unorm in Hn.
  destruct (nzhead (Pos.to_uint p)) eqn:Hz; rewrite Hn in *;
    try done. by eapply Hh.
Qed.

Lemma scan_int_encode_int (n : Z) (rest : string) :
  int_end rest = true ->
  scan_int (encode_int n +:+ rest) = Some (n, rest).
Proof.
  intros Hend. unfold encode_int.
  assert (forall u : uint,
    match u with Nil | D0 _ => False | _ => True end ->
    forall neg : bool,
      (let '(ds, r) := scan_digits (NilEmpty.string_of_uint u +:+ rest) in
       match ds with
       | EmptyString => None
       | String "0" (String _ _) => None
       | _ =>
           match r with
           | String "." _ | String "e" _ | String "E" _ => None
           | _ =>
               match NilEmpty.uint_of_string ds with
               | Some u' => Some (Z.of_int (if neg then Neg u' else Pos u'), r)
               | None => None
               end
           end
       end)
      = Some (Z.of_int (if neg then Neg u else Pos u), rest)) as Hbody.
  { intros u Hu neg. rewrite (scan_digits_uint u rest Hend).
    assert (match rest with
            | String "." _ | String "e" _ | String "E" _ => true
            | _ => false
            end = false) as Hrest.
    { destruct rest as [|c r]; [done|]. cbn [int_end] in Hend.
      destruct c as [[] [] [] [] [] [] [] []]; try done. }
    destruct u; try done;
      cbn [NilEmpty.string_of_uint];
      rewrite <- ?(NilEmpty.usu u);
      (destruct rest as [|c r];
        [ cbn [NilEmpty.uint_of_string]; rewrite ?NilEmpty.usu; reflexivity |]);
      destruct c as [[] [] [] [] [] [] [] []]; try discriminate Hrest;
      cbn [NilEmpty.uint_of_string]; rewrite ?NilEmpty.usu; reflexivity. }
  destruct n as [|p|p]; cbn [Z.to_int NilEmpty.string_of_int].
  - cbn. destruct rest as [|c r]; [done|]. cbn [int_end] in Hend.
    destruct c as [[] [] [] [] [] [] [] []]; try done.
  - pose proof (to_uint_leading p) as Hu.
    replace (Z.pos p) with (Z.of_int (Pos (Pos.to_uint p)))
      by apply (DecimalZ.of_to (Z.pos p)).
    rewrite <- (Hbody (Pos.to_uint p) Hu false).
    unfold scan_int.
    destruct (Pos.to_uint p); try done; reflexivity.
  - pose proof (to_uint_leading p) as Hu.
    replace (Z.neg p) with (Z.of_int (Neg (Pos.to_uint p)))
      by apply (DecimalZ.of_to (Z.neg p)).
    rewrite <- (Hbody (Pos.to_uint p) Hu true).
    reflexivity.
Qed.

(** *** Values *)

Lemma json_ind (P : json -> Prop) :
  P JNull ->
  (forall b, P (JBool b)) ->
  (forall n, P (JInt n)) ->
  (forall s, P (JStr s)) ->
  (forall l, Forall P l -> P (JList l)) ->
  (forall d, Forall (fun kv => P (snd kv)) d -> P (JDict d)) ->
  forall v, P v.
Proof.
  intros Hnull Hbool Hint Hstr Hlist Hdict.
  fix IH 1. intros [|b|n|s|l|d].
  - exact Hnull.
  - apply Hbool.
  - apply Hint.
  - apply Hstr.
  - apply Hlist. induction l as [|x l IHl]; constructor; [apply IH | exact IHl].
  - apply Hdict. induction d as [|[k x] d IHd]; constructor; [apply IH | exact IHd].
Qed.

Lemma parse_value_quote fuel r :
  parse_value (S fuel) (String "034" r)
  = match scan_string r with
    | Some (t, r') => Some (JStr t, r')
    | None => None
    end.
Proof. reflexivity. Qed.

Lemma parse_value_bracket fuel r :
  parse_value (S fuel) (String "[" r)
  = match skip_ws r with
    | String "]" r' => Some (JList [], r')
    | r0 =>
        match parse_items fuel r0 with
        | Some (l, r') => Some (JList l, r')
        | None => None
        end
    end.
Proof. reflexivity. Qed.

Lemma parse_value_brace fuel r :
  parse_value (S fuel) (String "{" r)
  = match skip_ws r with
    | String "}" r' => Some (JDict [], r')
    | r0 =>
        match parse_members fuel r0 with
        | Some (l, r') => Some (JDict (dict_of_pairs l), r')
        | None => None
        end
    end.
Proof. reflexivity. Qed.

Lemma parse_value_int_head fuel s :
  int_head s = true ->
  parse_value (S fuel) s
  = match scan_int s with
    | Some (n, r) => Some (JInt n, r)
    | None => None
    end.
Proof.
  destruct s as [|c r]; [done|].
  destruct c as [[] [] [] [] [] [] [] []]; try discriminate; reflexivity.
Qed.

Lemma int_head_encode_int n rest : int_head (encode_int n +:+ rest) = true.
Proof.
  unfold encode_int. destruct n as [|p|p]; cbn [Z.to_int NilEmpty.string_of_int];
    [reflexivity | | reflexivity].
  pose proof (to_uint_leading p) as Hu.
  destruct (Pos.to_uint p); try done; reflexivity.
Qed.

Lemma int_head_value_head s : int_head s = true -> value_head s = true.
Proof.
  destruct s as [|c r]; [done|].
  destruct c as [[] [] [] [] [] [] [] []]; try discriminate; reflexivity.
Qed.

Lemma value_head_dumps v rest : value_head (dumps v +:+ rest) = true.
Proof.
  destruct v as [|[]|n|s|l|d]; try reflexivity.
  apply int_head_value_head, int_head_encode_int.
Qed.

Lemma skip_ws_value_head s : value_head s = true -> skip_ws s = s.
Proof.
  destruct s as [|c r]; [done|]. cbn [value_head skip_ws].
  by destruct (is_ws c).
Qed.

Lemma append_nil_r (a : string) : a +:+ EmptyString = a.
Proof. induction a as [|x a IH]; [done|]. by rewrite append_cons, IH. Qed.

Lemma dict_set_fresh k v d :
  k ∉ List.map fst d -> dict_set k v d = d ++ [(k, v)].
Proof.
  induction d as [|[k' v'] d IH]; [done|]. cbn [List.map fst dict_set].
  intros Hk. apply not_elem_of_cons in Hk as [Hne Hk].
  destruct (String.eqb_spec k' k) as [->|_]; [done|].
  cbn [app]. by rewrite IH.
Qed.

Lemma dict_of_pairs_unique (l : list (string * json)) :
  NoDup (List.map fst l) -> dict_of_pairs l = l.
Proof.
  unfold dict_of_pairs.
  enough (forall acc, NoDup (List.map fst (acc ++ l)) ->
            fold_left (fun d kv => dict_set (fst kv) (snd kv) d) l acc = acc ++ l)
    as H by (intros Hl; apply (H [] Hl)).
  induction l as [|[k v] l IH]; intros acc Hnd; cbn [fold_left].
  - by rewrite app_nil_r.
  - cbn [fst snd]. rewrite dict_set_fresh.
    + rewrite IH; rewrite <- app_assoc; [done|]. exact Hnd.
    + rewrite List.map_app in Hnd. cbn [List.map fst] in Hnd.
      apply NoDup_app in Hnd as (_ & Hnd & _).
      intros Hin. apply (Hnd k Hin). by left.
Qed.

Lemma int_end_bracket r : int_end (String "]" r) = true.
Proof. reflexivity. Qed.
Lemma int_end_brace r : int_end (String "}" r) = true.
Proof. reflexivity. Qed.
Lemma int_end_comma r : int_end (String "," r) = true.
Proof. reflexivity. Qed.

Lemma parse_items_unfold fuel s :
  parse_items (S fuel) s
  = match parse_value fuel s with
      | Some (v, r) =>
          match skip_ws r with
          | String "]" r' => Some ([v], r')
          | String "," r' =>
              match parse_items fuel (skip_ws r') with
              | Some (l, r'') => Some (v :: l, r'')
              | None => None
              end
          | _ => None
          end
      | None => None
      end.
Proof. reflexivity. Qed.

Ltac norm_append := repeat (rewrite ?append_assoc, ?append_cons, ?append_nil).

Lemma skip_ws_comma r : skip_ws (String "," r) = String "," r.
Proof. reflexivity. Qed.
Lemma skip_ws_bracket r : skip_ws (String "]" r) = String "]" r.
Proof. reflexivity. Qed.
Lemma skip_ws_brace r : skip_ws (String "}" r) = String "}" r.
Proof. reflexivity. Qed.
Lemma skip_ws_colon r : skip_ws (String ":" r) = String ":" r.
Proof. reflexivity. Qed.
Lemma skip_ws_space r : skip_ws (String " " r) = skip_ws r.
Proof. reflexivity. Qed.

Lemma value_head_items x l rest :
  value_head (dumps_items dumps (x :: l) +:+ rest) = true.
Proof. cbn [dumps_items]. rewrite append_assoc. apply value_head_dumps. Qed.

Lemma parse_items_dumps (l : list json) :
  l <> [] -> Forall reads_back l -> Forall well_formed l ->
  forall fuel rest, weight_items weight l <= fuel ->
    parse_items fuel (dumps_items dumps l +:+ rest) = Some (l, rest).
Proof.
  induction l as [|x l IHl]; [done|]. intros _ Hrb Hwf fuel rest Hfuel.
  inversion_clear Hrb as [|? ? Hx Hl]. inversion_clear Hwf as [|? ? Wx Wl].
  cbn [weight_items] in Hfuel. destruct fuel as [|fuel]; [lia|].
  rewrite parse_items_unfold. cbn [dumps_items].
  destruct l as [|y l]; norm_append.
  - rewrite (Hx Wx fuel _ ltac:(lia) (int_end_bracket _)). reflexivity.
  - rewrite (Hx Wx fuel _ ltac:(lia) (int_end_comma _)).
    rewrite skip_ws_comma. cbv beta iota. rewrite skip_ws_space.
    rewrite (skip_ws_value_head _ (value_head_items y l rest)).
    rewrite IHl; [done | done | done | done | lia].
Qed.

Lemma parse_members_unfold fuel r :
  parse_members (S fuel) (String "034" r)
  = match scan_string r with
    | Some (k, r1) =>
        match skip_ws r1 with
        | String ":" r2 =>
            match parse_value fuel (skip_ws r2) with
            | Some (v, r3) =>
                match skip_ws r3 with
                | String "}" r' => Some ([(k, v)], r')
                | String "," r4 =>
                    match parse_members fuel (skip_ws r4) with
                    | Some (l, r') => Some ((k, v) :: l, r')
                    | None => None
                    end
                | _ => None
                end
            | None => None
            end
        | _ => None
        end
    | None => None
    end.
Proof. reflexivity. Qed.

Lemma value_head_members kx d rest :
  value_head (dumps_members dumps (kx :: d) +:+ rest) = true.
Proof. destruct kx as [k x]. reflexivity. Qed.

Lemma parse_members_dumps (d : list (string * json)) :
  d <> [] ->
  Forall (fun kv => reads_back (snd kv)) d ->
  Forall (fun kv => well_formed (snd kv)) d ->
  forall fuel rest, weight_members weight d <= fuel ->
    parse_members fuel (dumps_members dumps d +:+ rest) = Some (d, rest).
Proof.
  induction d as [|[k x] d IHd]; [done|]. intros _ Hrb Hwf fuel rest Hfuel.
  inversion_clear Hrb as [|? ? Hx Hl]. inversion_clear Hwf as [|? ? Wx Wl].
  cbn [snd] in Hx, Wx.
  cbn [weight_members] in Hfuel. destruct fuel as [|fuel]; [lia|].
  cbn [dumps_members]. unfold encode_str.
  destruct d as [|ky d]; norm_append;
    rewrite parse_members_unfold, scan_string_escape, skip_ws_colon;
    cbv beta iota; rewrite skip_ws_space;
    rewrite (skip_ws_value_head _ (value_head_dumps x _)).
  - rewrite (Hx Wx fuel _ ltac:(lia) (int_end_brace _)). reflexivity.
  - rewrite (Hx Wx fuel _ ltac:(lia) (int_end_comma _)).
    rewrite skip_ws_comma. cbv beta iota. rewrite skip_ws_space.
    rewrite (skip_ws_value_head _ (value_head_members ky d rest)).
    rewrite IHd; [done | done | done | done | lia].
Qed.

Lemma parse_value_bracket_items fuel r :
  value_head r = true ->
  parse_value (S fuel) (String "[" r)
  = match parse_items fuel r with
    | Some (l, r') => Some (JList l, r')
    | None => None
    end.
Proof.
  intros Hr. rewrite parse_value_bracket, (skip_ws_value_head _ Hr).
  destruct r as [|c r]; [done|].
  destruct c as [[] [] [] [] [] [] [] []]; try discriminate; reflexivity.
Qed.

Lemma parse_value_brace_members fuel r :
  value_head r = true ->
  parse_value (S fuel) (String "{" r)
  = match parse_members fuel r with
    | Some (l, r') => Some (JDict (dict_of_pairs l), r')
    | None => None
    end.
Proof.
  intros Hr. rewrite parse_value_brace, (skip_ws_value_head _ Hr).
  destruct r as [|c r]; [done|].
  destruct c as [[] [] [] [] [] [] [] []]; try discriminate; reflexivity.
Qed.

Lemma parse_value_dumps (v : json) : reads_back v.
Proof.
  induction v as [|b|n|s|l IHl|d IHd] using json_ind;
    intros Hwf fuel rest Hfuel Hend;
    (destruct fuel as [|fuel]; [cbn [weight] in Hfuel; lia|]).
  - reflexivity.
  - by destruct b.
  - cbn [dumps]. rewrite parse_value_int_head by apply int_head_encode_int.
    by rewrite scan_int_encode_int.
  - cbn [dumps]. unfold encode_str. norm_append.
    by rewrite parse_value_quote, scan_string_escape.
  - inversion_clear Hwf as [| | | |? Wl|]. cbn [dumps weight] in *. norm_append.
    destruct l as [|x l]; [reflexivity|].
    rewrite (parse_value_bracket_items _ _ (value_head_items x l rest)).
    rewrite parse_items_dumps; [done | done | done | done | lia].
  - inversion_clear Hwf as [| | | | |? Wk Wd]. cbn [dumps weight] in *. norm_append.
    destruct d as [|kx d]; [reflexivity|].
    rewrite (parse_value_brace_members _ _ (value_head_members kx d rest)).
    rewrite parse_members_dumps; [| done | done | done | lia].
    by rewrite dict_of_pairs_unique.
Qed.

Lemma weight_le_length (v : json) : weight v <= String.length (dumps v).
Proof.
  induction v as [|b|n|s|l IHl|d IHd] using json_ind.
  - cbn. lia.
  - destruct b; cbn; lia.
  - pose proof (int_head_encode_int n EmptyString) as H.
    rewrite append_nil_r in H. cbn [dumps weight].
    destruct (encode_int n); [done|]. cbn [String.length]. lia.
  - cbn. lia.
  - cbn [dumps weight]. rewrite append_cons, append_nil. cbn [String.length].
    apply le_n_S. induction IHl as [|x l Hx Hl IH]; [cbn; lia|].
    cbn [dumps_items weight_items]. rewrite length_append.
    destruct l as [|y l]; [cbn in *; lia|].
    rewrite !append_cons, append_nil. cbn [String.length]. lia.
  - cbn [dumps weight]. rewrite append_cons, append_nil. cbn [String.length].
    apply le_n_S. induction IHd as [|[k x] d Hx Hd IH]; [cbn; lia|].
    cbn [dumps_members weight_members snd] in *. rewrite !length_append.
    destruct d as [|ky d]; [cbn in *; lia|].
    rewrite !append_cons, append_nil. cbn [String.length]. lia.
Qed.

Theorem loads_dumps (v : json) : well_formed v -> loads (dumps v) = Some v.
Proof.
  intros Hwf. unfold loads.
  pose proof (value_head_dumps v EmptyString) as Hh. rewrite append_nil_r in Hh.
  rewrite (skip_ws_value_head _ Hh).
  pose proof (parse_value_dumps v Hwf (S (String.length (dumps v))) EmptyString) as H.
  rewrite append_nil_r in H. rewrite H; [done | | done].
  pose proof (weight_le_length v). lia.
Qed.

End JsonRoundTrip.

(** ** The table *)

Lemma delete_eq_absent doc_id (t : table) :
  doc_id ∉ List.map Row.id t -> delete_eq doc_id t = t.
Proof.
  unfold delete_eq.
  induction t as [|r t IH]; [done|]. cbn [List.map List.filter].
  intros Hn. apply not_elem_of_cons in Hn as [Hne Hn].
  destruct (String.eqb_spec (Row.id r) doc_id) as [Heq|_]; [done|].
  cbn [negb]. f_equal. by apply IH.
Qed.

Lemma select_eq_absent doc_id (t : table) :
  doc_id ∉ List.map Row.id t -> select_eq doc_id t = [].
Proof.
  unfold select_eq.
  induction t as [|r t IH]; [done|]. cbn [List.map List.filter].
  intros Hn. apply not_elem_of_cons in Hn as [Hne Hn].
  destruct (String.eqb_spec (Row.id r) doc_id) as [Heq|_]; [done|].
  by apply IH.
Qed.






(** Without the key constraint the written row is still the first match. *)
Lemma select_eq_upsert_first data (t : table) :
  exists rest, select_eq (Row.id data) (upsert data t) = data :: rest.
Proof.
  unfold select_eq. induction t as [|r t IH]; cbn [upsert List.filter].
  - rewrite String.eqb_refl. by eexists.
  - destruct (String.eqb_spec (Row.id r) (Row.id data)) as [Heq|Hrd];
      cbn [List.filter].
    + rewrite String.eqb_refl. by eexists.
    + destruct (String.eqb_spec (Row.id r) (Row.id data)); [done|].
      exact IH.
Qed.



(** ** Deleting *)

(** C7. On an available store whose call goes through, [delete_document]
    returns [True] also for an identifier that no row carries, and then the
    table is what it was; it returns [False] only when the store is
    unavailable or the remote call fails. *)
Theorem delete_document_missing_id (doc_id : string) (w : world) :
  (is_available w = true -> call_fails w = false ->
   doc_id ∉ List.map Row.id (documents w) ->
   fst (delete_document doc_id w) = true
   /\ documents (snd (delete_document doc_id w)) = documents w)
  /\ (fst (delete_document doc_id w) = false ->
      is_available w = false \/ call_fails w = true).
Proof.
  split.
  - intros Ha Hf Hid.
    destruct (delete_document_world doc_id w) as (_ & _ & _ & Hd).
    rewrite delete_document_result, Hd, Ha, Hf. cbn [andb negb].
    split; [done|]. by apply delete_eq_absent.
  - rewrite delete_document_result.
    destruct (is_available w); [|by left].
    destruct (call_fails w); [by right|done].
Qed.

Lemma delete_document_missing_id_witness :
  is_available sample_world = true
  /\ call_fails sample_world = false
  /\ fst (delete_document "missing-id" sample_world) = true
  /\ documents (snd (delete_document "missing-id" sample_world))
     = documents sample_world.
Proof.
  split; [reflexivity|]. split; [reflexivity|].
  apply (proj1 (delete_document_missing_id "missing-id" sample_world));
    [reflexivity | reflexivity | apply not_elem_of_nil].
Defined.

(** ** Saving *)



(** ** Reading one document back *)

Lemma get_document_by_id_result doc_id w :
  fst (get_document_by_id doc_id w)
  = if is_available w && negb (call_fails w) then
      match select_eq doc_id (documents w) with
      | row :: _ =>
          match decoded (Row.summary_json row), decoded (Row.metadata_json row) with
          | Some summary, Some metadata =>
              Some (document_of_row row summary metadata)
          | _, _ => None
          end
      | [] => None
      end
    else None.
Proof.
  unfold get_document_by_id, is_available.
  pose proof (get_supabase_client_call_fails w) as Hf.
  pose proof (proj1 (get_supabase_client_env w)) as Hd.
  destruct (get_supabase_client w) as [[c|] w1]; cbn [fst snd] in *; [|done].
  unfold try_except, bind, execute, ret. rewrite Hf, Hd.
  destruct (call_fails w); [done|]. cbn [andb negb fst snd].
  destruct (select_eq doc_id (documents w)) as [|row rest]; [done|].
  unfold loads_or_empty, decoded, lift, ret.
  destruct (opt_truthy (Row.summary_json row));
    [destruct (loads (default EmptyString (Row.summary_json row)))|];
    cbn [fst snd]; try done;
    (destruct (opt_truthy (Row.metadata_json row));
      [destruct (loads (default EmptyString (Row.metadata_json row)))|];
      done).
Qed.

Lemma dumps_dict_truthy (d : pydict) : str_truthy (dumps (JDict d)) = true.
Proof. reflexivity. Qed.

Lemma decoded_dumps (d : pydict) :
  well_formed (JDict d) -> decoded (Some (dumps (JDict d))) = Some (JDict d).
Proof.
  intros Hwf. unfold decoded. cbn [opt_truthy default].
  rewrite dumps_dict_truthy. by apply loads_dumps.
Qed.

Lemma word_count_of_text (s : string) :
  word_count_of (Some s) = List.length (PyStr.split s).
Proof. by destruct s. Qed.

(** A successful save followed by a read of the same identifier. *)
Lemma save_then_get_document (doc_id filename file_path ocr_text : string)
    (file_type : option string) (file_size : Z)
    (summary metadata : option pydict) (w : world) :
  let row := document_row doc_id filename file_path ocr_text file_type
               file_size summary metadata (now w) in
  let w1 := snd (save_document doc_id filename file_path ocr_text file_type
                   file_size summary metadata w) in
  is_available w = true -> call_fails w = false -> call_fails w1 = false ->
  well_formed (JDict (dict_or_empty summary)) ->
  well_formed (JDict (dict_or_empty metadata)) ->
  (exists rest, select_eq doc_id (documents w1) = row :: rest)
  /\ fst (get_document_by_id doc_id w1)
     = Some (document_of_row row (JDict (dict_or_empty summary))
               (JDict (dict_or_empty metadata))).
Proof.
  intros row w1 Ha Hf Hf1 Hs Hm.
  destruct (save_document_world doc_id filename file_path ocr_text file_type
              file_size summary metadata w) as (Ha1 & _ & _ & Hd).
  fold w1 in Ha1, Hd. rewrite Ha, Hf in Hd. cbn [andb negb] in Hd. fold row in Hd.
  destruct (select_eq_upsert_first row (documents w)) as [rest Hsel].
  change (Row.id row) with doc_id in Hsel.
  split; [exists rest; by rewrite Hd|].
  rewrite get_document_by_id_result, Ha1, Ha, Hf1, Hd, Hsel. cbn [andb negb].
  subst row. cbn [document_row Row.summary_json Row.metadata_json].
  by rewrite !decoded_dumps.
Qed.




(** C9. A document saved with its summary map absent, its metadata map
    absent, or both, is stored with the text of the empty JSON object in the
    field concerned, and [get_document_by_id] then returns the empty map
    there. *)
Theorem absent_maps_saved_empty (doc_id filename file_path ocr_text : string)
    (file_type : option string) (file_size : Z)
    (summary metadata : option pydict) (w : world) :
  let w1 := snd (save_document doc_id filename file_path ocr_text file_type
                   file_size summary metadata w) in
  is_available w = true -> call_fails w = false -> call_fails w1 = false ->
  well_formed (JDict (dict_or_empty summary)) ->
  well_formed (JDict (dict_or_empty metadata)) ->
  exists row rest doc,
    select_eq doc_id (documents w1) = row :: rest
    /\ fst (get_document_by_id doc_id w1) = Some doc
    /\ (summary = None ->
        Row.summary_json row = Some "{}" /\ Document.summary doc = JDict [])
    /\ (metadata = None ->
        Row.metadata_json row = Some "{}" /\ Document.metadata doc = JDict []).
Proof.
  intros w1 Ha Hf Hf1 Hs Hm.
  destruct (save_then_get_document doc_id filename file_path ocr_text
              file_type file_size summary metadata w Ha Hf Hf1 Hs Hm)
    as [[rest Hsel] Hget].
  eexists _, rest, _. split; [exact Hsel|]. split; [exact Hget|].
  split; intros ->; split; reflexivity.
Qed.

Lemma absent_maps_saved_empty_witness :
  exists row rest doc,
    select_eq "d1"
      (documents (snd (save_document "d1" "notice.PDF" "/uploads/notice.PDF"
                         "alpha beta gamma" None 16 None None sample_world)))
    = row :: rest
    /\ fst (get_document_by_id "d1"
              (snd (save_document "d1" "notice.PDF" "/uploads/notice.PDF"
                      "alpha beta gamma" None 16 None None sample_world)))
       = Some doc
    /\ (Row.summary_json row = Some "{}" /\ Document.summary doc = JDict [])
    /\ (Row.metadata_json row = Some "{}" /\ Document.metadata doc = JDict []).
Proof.
  destruct (absent_maps_saved_empty "d1" "notice.PDF" "/uploads/notice.PDF"
              "alpha beta gamma" None 16 None None sample_world)
    as (row & rest & doc & Hsel & Hget & Hs & Hm);
    [reflexivity | reflexivity | reflexivity
    | apply wf_dict; constructor | apply wf_dict; constructor |].
  exists row, rest, doc. split; [exact Hsel|]. split; [exact Hget|].
  split; [apply Hs | apply Hm]; reflexivity.
Defined.

(** ** Insert-or-replace *)



(** ** The stored file type *)

(** The statement of C8 fails for a file type that is supplied as the empty
    string: the extension of the file name is stored, not the empty
    string. *)
Lemma empty_file_type_not_stored :
  List.map Row.file_type
    (documents (snd (save_document "d1" "notice.PDF" "/uploads/notice.PDF"
                       "alpha beta gamma" (Some EmptyString) 16 None None
                       sample_world)))
  = [Some ".pdf"]
  /\ Some ".pdf" <> Some EmptyString.
Proof. split; [reflexivity | discriminate]. Qed.

(** C8, amended. The stored file type is the lower-cased extension of the
    file name when no file type is given or the one given is the empty
    string, and the given file type otherwise. *)
Theorem save_document_file_type (doc_id filename file_path ocr_text : string)
    (file_type : option string) (file_size : Z)
    (summary metadata : option pydict) (w : world) :
  fst (save_document doc_id filename file_path ocr_text file_type file_size
         summary metadata w) = true ->
  exists row rest,
    select_eq doc_id
      (documents (snd (save_document doc_id filename file_path ocr_text
                         file_type file_size summary metadata w)))
    = row :: rest
    /\ Row.file_type row
       = Some match file_type with
              | None | Some EmptyString => PyStr.lower (path_suffix filename)
              | Some given => given
              end.
Proof.
  intros Hsave. rewrite save_document_result in Hsave.
  destruct (save_document_world doc_id filename file_path ocr_text file_type
              file_size summary metadata w) as (_ & _ & _ & Hd).
  rewrite Hsave in Hd.
  destruct (select_eq_upsert_first
              (document_row doc_id filename file_path ocr_text file_type
                 file_size summary metadata (now w)) (documents w))
    as [rest Hsel].
  eexists _, rest. split; [rewrite Hd; exact Hsel|].
  by destruct file_type as [[|c s]|].
Qed.

Lemma save_document_file_type_witness :
  exists row rest,
    select_eq "d1"
      (documents (snd (save_document "d1" "notice.PDF" "/uploads/notice.PDF"
                         "alpha beta gamma" None 16 None None sample_world)))
    = row :: rest
    /\ Row.file_type row = Some ".pdf".
Proof.
  apply (save_document_file_type "d1" "notice.PDF" "/uploads/notice.PDF"
           "alpha beta gamma" None 16 None None sample_world).
  reflexivity.
Defined.

(** ** Sorting *)

Section SortFacts.
Context {A : Type} (geb : A -> A -> bool).
Hypothesis geb_total : forall x y, geb x y = false -> geb y x = true.
Hypothesis geb_trans :
  forall x y z, geb x y = true -> geb y z = true -> geb x z = true.

Let R (x y : A) : Prop := geb x y = true.

Lemma insert_desc_perm x l : Permutation (insert_desc geb x l) (x :: l).
Proof.
  induction l as [|y l IH]; cbn [insert_desc]; [done|].
  destruct (geb x y); [done|].
  rewrite IH. apply perm_swap.
Qed.

Lemma sort_desc_perm l : Permutation (sort_desc geb l) l.
Proof.
  induction l as [|x l IH]; [done|].
  cbn [sort_desc fold_right]. rewrite insert_desc_perm.
  by apply perm_skip.
Qed.

Lemma insert_desc_sorted x l :
  StronglySorted R l -> StronglySorted R (insert_desc geb x l).
Proof.
  induction 1 as [|y l Hl IH Hy]; cbn [insert_desc].
  - repeat constructor.
  - destruct (geb x y) eqn:Hxy.
    + constructor; [by constructor|].
      constructor; [exact Hxy|].
      eapply List.Forall_impl; [|exact Hy].
      intros z Hyz. by apply (geb_trans x y z).
    + constructor; [exact IH|].
      rewrite insert_desc_perm. constructor; [|exact Hy].
      by apply geb_total.
Qed.

Lemma sort_desc_sorted l : StronglySorted R (sort_desc geb l).
Proof.
  induction l as [|x l IH]; [constructor|].
  cbn [sort_desc fold_right]. by apply insert_desc_sorted.
Qed.

(** The sort is stable: it is the identity on a list already in order. *)
Lemma sort_desc_of_sorted l : StronglySorted R l -> sort_desc geb l = l.
Proof.
  induction 1 as [|x l Hl IH Hx]; [done|].
  cbn [sort_desc fold_right]. fold (sort_desc geb l). rewrite IH.
  destruct l as [|y l]; [done|]. cbn [insert_desc].
  apply Forall_cons in Hx as [Hxy _]. unfold R in Hxy. by rewrite Hxy.
Qed.

End SortFacts.

(** ** Listing *)

Lemma date_geb_total (a b : option string) :
  date_geb a b = false -> date_geb b a = true.
Proof.
  destruct a as [x|], b as [y|]; cbn; try done.
  intros Hxy. destruct (String.leb_total x y) as [H|H]; [done|congruence].
Qed.

Lemma string_leb_trans (x y z : string) :
  String.leb x y = true -> String.leb y z = true -> String.leb x z = true.
Proof.
  intros Hxy Hyz. apply Is_true_true.
  apply (transitivity (R := String.le) (y := y)); by apply Is_true_true.
Qed.

Lemma date_geb_trans (a b c : option string) :
  date_geb a b = true -> date_geb b c = true -> date_geb a c = true.
Proof.
  destruct a as [x|], b as [y|], c as [z|]; cbn; try done.
  intros Hyx Hzy. by apply (string_leb_trans z y x).
Qed.

Lemma length_take_300 (s : string) :
  300 < String.length s -> String.length (PyStr.take 300 s) = 300.
Proof.
  unfold PyStr.take. generalize 300. intros n. revert s.
  induction n as [|n IH]; intros s Hs; [by destruct s|].
  destruct s as [|c s]; cbn in *; [lia|]. rewrite IH; [done|lia].
Qed.

(** C4. On an available store whose call goes through, the listing holds
    one preview for each stored row, in descending order of upload date
    (most recent first); in each preview the text is whole when it has at
    most 300 characters and is otherwise cut to its first 300 characters
    followed by three dots, the word count is the number of
    whitespace-delimited tokens of the text (0 for an empty or missing
    text), and the title is the file name when there is a non-empty one and
    the identifier otherwise. *)
Theorem get_all_documents_listing (w : world) :
  is_available w = true -> call_fails w = false ->
  exists rows,
    fst (get_all_documents_from_db w) = List.map preview_of rows
    /\ Permutation rows (documents w)
    /\ StronglySorted
         (fun a b => date_geb (Row.upload_date a) (Row.upload_date b) = true)
         rows
    /\ forall row,
         Preview.doc_id (preview_of row) = Row.id row
         /\ (forall text, Row.ocr_text row = Some text ->
               (String.length text <= 300 ->
                  Preview.text_preview (preview_of row) = Some text)
               /\ (300 < String.length text ->
                     Preview.text_preview (preview_of row)
                     = Some (PyStr.take 300 text +:+ "...")
                     /\ String.length (PyStr.take 300 text) = 300)
               /\ Preview.word_count (preview_of row)
                  = List.length (PyStr.split text))
         /\ (Row.ocr_text row = None \/ Row.ocr_text row = Some EmptyString ->
               Preview.word_count (preview_of row) = 0)
         /\ (forall name, Row.filename row = Some name -> name <> EmptyString ->
               Preview.title (preview_of row) = name)
         /\ (Row.filename row = None \/ Row.filename row = Some EmptyString ->
               Preview.title (preview_of row) = Row.id row).
Proof.
  intros Ha Hf. exists (select_order_desc (documents w)).
  split; [by rewrite get_all_documents_from_db_result, Ha, Hf|].
  split; [apply sort_desc_perm|].
  split.
  { apply (sort_desc_sorted
             (fun a b => date_geb (Row.upload_date a) (Row.upload_date b))).
    - intros x y. apply date_geb_total.
    - intros x y z. apply date_geb_trans. }
  intros row. split; [done|].
  cbn [preview_of Preview.text_preview Preview.word_count Preview.title].
  split; [|split; [|split]].
  - intros text ->. cbn [text_preview_of]. split; [|split].
    + intros Hlen. apply Nat.ltb_ge in Hlen. rewrite Hlen.
      by rewrite andb_false_r.
    + intros Hlen. split; [|by apply length_take_300].
      assert (str_truthy text = true) as -> by (destruct text; [cbn in Hlen; lia|done]).
      apply Nat.ltb_lt in Hlen. by rewrite Hlen.
    + apply word_count_of_text.
  - by intros [-> | ->].
  - intros name Hname Hne. unfold title_of. rewrite Hname. cbn [str_or].
    by destruct name.
  - unfold title_of. by intros [-> | ->].
Qed.

Lemma get_all_documents_listing_witness :
  exists rows,
    fst (get_all_documents_from_db stocked_world) = List.map preview_of rows
    /\ Permutation rows (documents stocked_world)
    /\ List.map Row.id rows = ["b"; "c"; "a"].
Proof.
  destruct (get_all_documents_listing stocked_world eq_refl eq_refl)
    as (rows & Hlist & Hperm & _).
  exists rows. split; [exact Hlist|]. split; [exact Hperm|].
  assert (List.map Preview.doc_id (fst (get_all_documents_from_db stocked_world))
          = ["b"; "c"; "a"]) as Hids by reflexivity.
  rewrite Hlist, List.map_map in Hids. exact Hids.
Defined.


(** ** Similar documents *)

Lemma word_set_empty : word_set EmptyString = ∅.
Proof. reflexivity. Qed.

Lemma similar_docs_kept (new_words : gset string) (threshold : Q)
    (rows : list Row.t) :
  similar_docs new_words threshold rows
  = List.map (match_of new_words)
      (List.filter (kept new_words threshold) rows).
Proof.
  induction rows as [|row rows IH]; [done|].
  cbn [similar_docs List.filter]. unfold kept at 1, eligible.
  assert (row_words row
          = match Row.ocr_text row with
            | Some text => word_set text
            | None => ∅
            end) as Hrw by done.
  destruct (Row.ocr_text row) as [[|c text]|]; rewrite Hrw.
  - cbn [str_truthy negb]. rewrite word_set_empty, size_empty. exact IH.
  - cbn [str_truthy negb].
    destruct (Nat.ltb_spec (size (word_set (String c text))) 10) as [Hlt|Hge].
    + rewrite (proj2 (Nat.leb_gt _ _) Hlt). exact IH.
    + rewrite (proj2 (Nat.leb_le _ _) Hge). cbn [andb].
      assert (0 < size (new_words ∪ word_set (String c text))) as Hu.
      { eapply Nat.lt_le_trans; [|apply subseteq_size, union_subseteq_r].
        lia. }
      rewrite (proj2 (Nat.ltb_lt _ _) Hu).
      fold (jaccard new_words (word_set (String c text))).
      destruct (Qle_bool threshold (jaccard new_words (word_set (String c text))));
        [|exact IH].
      cbn [List.map]. unfold match_of at 1. by rewrite Hrw, IH.
  - rewrite size_empty. exact IH.
Qed.

Lemma find_similar_documents_result new_text threshold w :
  fst (find_similar_documents new_text threshold w)
  = if is_available w && negb (call_fails w)
       && (10 <=? size (word_set new_text))
    then find_similar_spec new_text threshold (documents w)
    else [].
Proof.
  unfold find_similar_documents, is_available, find_similar_spec.
  pose proof (get_supabase_client_call_fails w) as Hf.
  pose proof (proj1 (get_supabase_client_env w)) as Hd.
  destruct (get_supabase_client w) as [[c|] w1]; cbn [fst snd] in *; [|done].
  cbn [andb].
  destruct new_text as [|c0 text].
  { cbn [str_truthy negb fst]. rewrite word_set_empty, size_empty.
    by rewrite andb_false_r. }
  cbn [str_truthy negb].
  unfold try_except, bind, execute, ret. rewrite Hf, Hd.
  destruct (call_fails w); [done|]. cbn [andb negb fst snd].
  rewrite Nat.leb_antisym.
  destruct (documents w) as [|row rows] eqn:Hrows.
  - by destruct (size (word_set (String c0 text)) <? 10).
  - destruct (size (word_set (String c0 text)) <? 10); [done|].
    cbn [negb fst]. by rewrite similar_docs_kept.
Qed.

(** *** Rounding *)

Lemma round_half_even_near (q : Q) :
  (2 * Z.abs (Qnum q - round_half_even q * Zpos (Qden q)) <= Zpos (Qden q))%Z.
Proof.
  unfold round_half_even. destruct q as [n d]. cbn [Qnum Qden].
  pose proof (Z.div_mod n (Zpos d) ltac:(done)) as Hdm.
  pose proof (Z.mod_pos_bound n (Zpos d) ltac:(done)) as Hr.
  set (f := (n / Zpos d)%Z) in *. set (r := (n mod Zpos d)%Z) in *.
  destruct (Z.ltb_spec (2 * r) (Zpos d)); [nia|].
  destruct (Z.ltb_spec (Zpos d) (2 * r)); [nia|].
  destruct (Z.even f); nia.
Qed.


Lemma round1_tenths (x : Q) : round1 x = round_half_even (x * 10) # 10.
Proof. reflexivity. Qed.

(** *** The order of the matches *)

Lemma similarity_geb_total (x y : Match.t) :
  similarity_geb x y = false -> similarity_geb y x = true.
Proof.
  unfold similarity_geb. intros Hxy. apply Qle_bool_iff.
  destruct (Qlt_le_dec (Match.similarity x) (Match.similarity y)) as [Hlt|Hle].
  - by apply Qlt_le_weak.
  - apply Qle_bool_iff in Hle. congruence.
Qed.

Lemma similarity_geb_trans (x y z : Match.t) :
  similarity_geb x y = true -> similarity_geb y z = true ->
  similarity_geb x z = true.
Proof.
  unfold similarity_geb. rewrite !Qle_bool_iff. intros Hyx Hzy.
  by apply (Qle_trans _ (Match.similarity y)).
Qed.


Lemma kept_iff (new_words : gset string) (threshold : Q) (row : Row.t) :
  kept new_words threshold row = true
  <-> 10 <= size (row_words row)
      /\ (threshold <= jaccard new_words (row_words row))%Q.
Proof.
  unfold kept, eligible.
  by rewrite andb_true_iff, Nat.leb_le, Qle_bool_iff.
Qed.

Lemma pk_unique_same_id (t : table) (r r' : Row.t) :
  pk_unique t -> r ∈ t -> r' ∈ t -> Row.id r = Row.id r' -> r = r'.
Proof.
  unfold pk_unique. induction t as [|x t IH]; [by intros _ ?%elem_of_nil|].
  cbn [List.map]. intros [Hx Hu]%NoDup_cons Hr Hr' Hid.
  apply elem_of_cons in Hr as [->|Hr]; apply elem_of_cons in Hr' as [->|Hr'].
  - done.
  - exfalso. apply Hx. rewrite Hid. by apply (list_elem_of_fmap_2 Row.id).
  - exfalso. apply Hx. rewrite <- Hid. by apply (list_elem_of_fmap_2 Row.id).
  - by apply IH.
Qed.

Lemma elem_of_find_similar_spec new_text threshold rows m :
  m ∈ find_similar_spec new_text threshold rows ->
  exists row,
    row ∈ rows /\ kept (word_set new_text) threshold row = true
    /\ m = match_of (word_set new_text) row.
Proof.
  unfold find_similar_spec. intros Hm.
  apply (subseteq_take 5) in Hm. rewrite sort_desc_perm in Hm.
  apply list_elem_of_In, in_map_iff in Hm as (row & <- & Hrow).
  apply filter_In in Hrow as [Hrow Hk].
  exists row. by rewrite list_elem_of_In.
Qed.




(** C5. [find_similar_documents] returns the empty list for a candidate
    with fewer than ten distinct case-folded tokens, whatever the
    threshold; every match it returns comes from a stored document with at
    least ten distinct tokens, so that, identifiers being unique, a stored
    document with fewer than ten is in no result. *)
Theorem short_texts_never_match (new_text : string) (threshold : Q)
    (w : world) :
  let result := fst (find_similar_documents new_text threshold w) in
  (size (word_set new_text) < 10 -> result = [])
  /\ (forall m, m ∈ result ->
        exists row,
          row ∈ documents w /\ Match.doc_id m = Row.id row
          /\ 10 <= size (row_words row))
  /\ (pk_unique (documents w) ->
      forall row, row ∈ documents w -> size (row_words row) < 10 ->
        Row.id row ∉ List.map Match.doc_id result).
Proof.
  intros result.
  assert (forall m, m ∈ result ->
            exists row,
              row ∈ documents w /\ Match.doc_id m = Row.id row
              /\ 10 <= size (row_words row)) as Hfrom.
  { intros m. unfold result. rewrite find_similar_documents_result.
    destruct (is_available w && negb (call_fails w)
              && (10 <=? size (word_set new_text)));
      [|by intros ?%elem_of_nil].
    intros (row & Hrow & Hk & ->)%elem_of_find_similar_spec.
    exists row. split; [done|]. split; [done|].
    by apply kept_iff in Hk as [Hk _]. }
  split; [|split; [exact Hfrom|]].
  - intros Hshort. unfold result. rewrite find_similar_documents_result.
    rewrite (proj2 (Nat.leb_gt _ _) Hshort). by rewrite andb_false_r.
  - intros Hpk row Hrow Hshort Hin.
    apply list_elem_of_In, in_map_iff in Hin as (m & Hid & Hm).
    apply list_elem_of_In, Hfrom in Hm as (row' & Hrow' & Hid' & Hten).
    assert (row' = row) as ->
      by (apply (pk_unique_same_id (documents w)); [done..|congruence]).
    lia.
Qed.

Lemma short_texts_never_match_witness :
  fst (find_similar_documents "transfer notice" default_threshold stocked_world)
  = []
  /\ "c" ∉ List.map Match.doc_id
             (fst (find_similar_documents sample_text (0 # 1) stocked_world)).
Proof.
  destruct (short_texts_never_match "transfer notice" default_threshold
              stocked_world) as (Hshort & _).
  destruct (short_texts_never_match sample_text (0 # 1) stocked_world)
    as (_ & _ & Hnever).
  split.
  - apply Hshort. apply Nat.ltb_lt. vm_compute. reflexivity.
  - apply (Hnever ltac:(compute_done)
             (document_row "c" "memo.txt" "/uploads/memo.txt" "transfer notice"
                None 15 None None "2024-05-02T17:40:00")).
    + do 2 (apply elem_of_cons; right). apply elem_of_cons. by left.
    + apply Nat.ltb_lt. vm_compute. reflexivity.
Defined.

(** * Further properties *)

(** ** The client handle, again *)

Lemma get_supabase_client_none w :
  fst (get_supabase_client w) = None -> snd (get_supabase_client w) = w.
Proof.
  unfold get_supabase_client.
  destruct (supabase w); [done|].
  destruct (str_truthy (SUPABASE_URL w) && str_truthy (SUPABASE_KEY w)); [|done].
  by destruct (create_client w (SUPABASE_URL w) (SUPABASE_KEY w)).
Qed.

(** X1. [get_supabase_client] settles after one call: a second call
    returns what the first returned and changes nothing more, so that the
    client is built at most once. *)
Theorem get_supabase_client_settles (w : world) :
  get_supabase_client (snd (get_supabase_client w))
  = (fst (get_supabase_client w), snd (get_supabase_client w)).
Proof.
  destruct (fst (get_supabase_client w)) as [c|] eqn:Hc.
  - by apply get_supabase_client_cached.
  - pose proof (get_supabase_client_none w Hc) as Hs. rewrite Hs.
    by apply injective_projections.
Qed.

(** X2. Without a handle and with one of the two settings empty, nothing
    reaches the store, whatever the client library would have answered:
    each of the five operations returns its sentinel and leaves the process
    and the table exactly as they were, no remote call being made. *)
Theorem unconfigured_operations (w : world) :
  supabase w = None ->
  SUPABASE_URL w = EmptyString \/ SUPABASE_KEY w = EmptyString ->
  get_supabase_client w = (None, w)
  /\ (forall doc_id filename file_path ocr_text file_type file_size summary
             metadata,
        save_document doc_id filename file_path ocr_text file_type file_size
          summary metadata w = (false, w))
  /\ get_all_documents_from_db w = ([], w)
  /\ (forall doc_id, get_document_by_id doc_id w = (None, w))
  /\ (forall doc_id, delete_document doc_id w = (false, w))
  /\ (forall new_text threshold,
        find_similar_documents new_text threshold w = ([], w)).
Proof.
  intros Hnone Hmissing.
  assert (get_supabase_client w = (None, w)) as Hclient.
  { unfold get_supabase_client. rewrite Hnone.
    destruct Hmissing as [-> | ->]; [done|]. by rewrite andb_false_r. }
  split; [exact Hclient|].
  unfold save_document, get_all_documents_from_db, get_document_by_id,
    delete_document, find_similar_documents.
  by rewrite Hclient.
Qed.

Lemma unconfigured_operations_witness :
  save_document "d1" "notice.PDF" "/uploads/notice.PDF" "alpha beta gamma"
    None 16 None None unconfigured_world = (false, unconfigured_world)
  /\ delete_document "d1" unconfigured_world = (false, unconfigured_world).
Proof.
  destruct (unconfigured_operations unconfigured_world eq_refl
              (or_introl eq_refl)) as (_ & Hsave & _ & _ & Hdel & _).
  split; [apply Hsave | apply Hdel].
Defined.

(** ** What the operations leave alone *)

Lemma get_document_by_id_world doc_id w :
  let w' := snd (get_document_by_id doc_id w) in
  is_available w' = is_available w
  /\ faults w' = (if is_available w then tl (faults w) else faults w)
  /\ documents w' = documents w.
Proof.
  cbn zeta. unfold get_document_by_id.
  pose proof (is_available_get_supabase_client w) as Ha.
  pose proof (get_supabase_client_call_fails w) as Hf.
  destruct (get_supabase_client_env w) as (Hd & Hfl & _).
  remember (is_available w) as av eqn:Hav. unfold is_available in Hav.
  destruct (get_supabase_client w) as [[c|] w1]; cbn [fst snd] in *; subst av;
    [|done].
  unfold try_except, bind, execute, ret, loads_or_empty, lift.
  repeat case_match; unfold ret in *; simplify_eq;
    cbn [fst snd faults documents set_documents set_faults];
    rewrite ?is_available_set_documents, ?is_available_set_faults;
    by rewrite ?Ha, ?Hfl, ?Hd.
Qed.

Lemma find_similar_documents_world new_text threshold w :
  let w' := snd (find_similar_documents new_text threshold w) in
  is_available w' = is_available w
  /\ faults w'
     = (if is_available w && str_truthy new_text
        then tl (faults w) else faults w)
  /\ documents w' = documents w.
Proof.
  cbn zeta. unfold find_similar_documents.
  pose proof (is_available_get_supabase_client w) as Ha.
  pose proof (get_supabase_client_call_fails w) as Hf.
  destruct (get_supabase_client_env w) as (Hd & Hfl & _).
  remember (is_available w) as av eqn:Hav. unfold is_available in Hav.
  destruct (get_supabase_client w) as [[c|] w1]; cbn [fst snd] in *; subst av;
    [|done].
  destruct new_text as [|c0 text]; [done|]. cbn [str_truthy negb andb].
  unfold try_except, bind, execute, ret.
  repeat case_match; unfold ret in *; simplify_eq;
    cbn [fst snd faults documents set_documents set_faults];
    rewrite ?is_available_set_documents, ?is_available_set_faults;
    by rewrite ?Ha, ?Hfl, ?Hd.
Qed.

Lemma get_all_documents_from_db_world w :
  let w' := snd (get_all_documents_from_db w) in
  is_available w' = is_available w
  /\ faults w' = (if is_available w then tl (faults w) else faults w)
  /\ documents w' = documents w.
Proof.
  destruct (guarded_call_world (fun _ tb => (select_order_desc tb, tb))
              (List.map preview_of) [] w) as (H1 & H2 & _ & H4 & _).
  repeat split; [exact H1 | exact H2 |].
  etransitivity; [exact H4|]. by destruct (is_available w && negb (call_fails w)).
Qed.

(** X3. The three reading operations never change the stored table,
    whether they succeed or not. *)
Theorem reads_keep_table (w : world) :
  documents (snd (get_all_documents_from_db w)) = documents w
  /\ (forall doc_id, documents (snd (get_document_by_id doc_id w)) = documents w)
  /\ (forall new_text threshold,
        documents (snd (find_similar_documents new_text threshold w))
        = documents w).
Proof.
  split; [apply get_all_documents_from_db_world|].
  split; [intros; apply get_document_by_id_world
         |intros; apply find_similar_documents_world].
Qed.




(** ** Deleting and reading back *)

Lemma select_eq_delete_eq_same doc_id (t : table) :
  select_eq doc_id (delete_eq doc_id t) = [].
Proof.
  unfold select_eq, delete_eq. induction t as [|r t IH]; [done|].
  cbn [List.filter]. destruct (String.eqb (Row.id r) doc_id) eqn:Hr; cbn [negb].
  - exact IH.
  - cbn [List.filter]. by rewrite Hr.
Qed.

Lemma select_eq_delete_eq_other doc_id other (t : table) :
  other <> doc_id ->
  select_eq other (delete_eq doc_id t) = select_eq other t.
Proof.
  intros Hne. unfold select_eq, delete_eq.
  induction t as [|r t IH]; [done|]. cbn [List.filter].
  destruct (String.eqb_spec (Row.id r) doc_id) as [Hr|Hr]; cbn [negb List.filter].
  - destruct (String.eqb_spec (Row.id r) other); [congruence|exact IH].
  - by rewrite IH.
Qed.

Lemma delete_eq_idempotent doc_id (t : table) :
  delete_eq doc_id (delete_eq doc_id t) = delete_eq doc_id t.
Proof.
  unfold delete_eq. induction t as [|r t IH]; [done|]. cbn [List.filter].
  destruct (negb (String.eqb (Row.id r) doc_id)) eqn:Hr; [|exact IH].
  cbn [List.filter]. by rewrite Hr, IH.
Qed.

Lemma delete_eq_upsert_fresh data (t : table) :
  Row.id data ∉ List.map Row.id t -> delete_eq (Row.id data) (upsert data t) = t.
Proof.
  unfold delete_eq. induction t as [|r t IH]; cbn [upsert List.map List.filter].
  - by rewrite String.eqb_refl.
  - intros [Hne Hn]%not_elem_of_cons.
    destruct (String.eqb_spec (Row.id r) (Row.id data)) as [Heq|_];
      [congruence|].
    cbn [List.filter].
    destruct (String.eqb_spec (Row.id r) (Row.id data)) as [Heq|_];
      [congruence|].
    cbn [negb]. by rewrite IH.
Qed.

(** X6. After a delete that returned [True], reading the deleted
    identifier gives [None], and the rows of every other identifier are
    as they were. *)
Theorem delete_then_get_absent (doc_id : string) (w : world) :
  let w1 := snd (delete_document doc_id w) in
  fst (delete_document doc_id w) = true ->
  fst (get_document_by_id doc_id w1) = None
  /\ (forall other, other <> doc_id ->
        select_eq other (documents w1) = select_eq other (documents w))
  /\ doc_id ∉ List.map Row.id (documents w1).
Proof.
  intros w1 Hdel. rewrite delete_document_result in Hdel.
  destruct (delete_document_world doc_id w) as (_ & _ & _ & Hd).
  fold w1 in Hd. rewrite Hdel in Hd.
  split; [|split].
  - rewrite get_document_by_id_result, Hd, select_eq_delete_eq_same.
    by destruct (is_available w1 && negb (call_fails w1)).
  - intros other Hne. rewrite Hd. by apply select_eq_delete_eq_other.
  - rewrite Hd. unfold delete_eq.
    intros (r & Hid & Hr)%list_elem_of_In%in_map_iff.
    apply filter_In in Hr as [_ Hr]. apply negb_true_iff in Hr.
    apply String.eqb_neq in Hr. congruence.
Qed.

Lemma delete_then_get_absent_witness :
  fst (delete_document "a" stocked_world) = true
  /\ fst (get_document_by_id "a" (snd (delete_document "a" stocked_world)))
     = None.
Proof.
  split; [reflexivity|].
  apply (delete_then_get_absent "a" stocked_world). reflexivity.
Defined.

(** X7. Deleting an identifier a second time changes nothing more: two
    deletes that return [True] leave the table that one leaves. *)
Theorem delete_twice (doc_id : string) (w : world) :
  let w1 := snd (delete_document doc_id w) in
  fst (delete_document doc_id w) = true ->
  fst (delete_document doc_id w1) = true ->
  documents (snd (delete_document doc_id w1)) = documents w1.
Proof.
  intros w1 Hdel Hdel1. rewrite delete_document_result in Hdel, Hdel1.
  destruct (delete_document_world doc_id w) as (_ & _ & _ & Hd).
  destruct (delete_document_world doc_id w1) as (_ & _ & _ & Hd1).
  fold w1 in Hd. rewrite Hdel in Hd. rewrite Hdel1 in Hd1.
  rewrite Hd1, Hd. apply delete_eq_idempotent.
Qed.

Lemma delete_twice_witness :
  documents (snd (delete_document "a" (snd (delete_document "a" stocked_world))))
  = documents (snd (delete_document "a" stocked_world)).
Proof.
  apply (delete_twice "a" stocked_world); reflexivity.
Defined.

(** X8. Saving a document under an identifier that the table does not
    hold and then deleting it gives the table back as it was. *)
Theorem save_then_delete_restores (doc_id filename file_path ocr_text : string)
    (file_type : option string) (file_size : Z)
    (summary metadata : option pydict) (w : world) :
  let w1 := snd (save_document doc_id filename file_path ocr_text file_type
                   file_size summary metadata w) in
  doc_id ∉ List.map Row.id (documents w) ->
  fst (save_document doc_id filename file_path ocr_text file_type file_size
         summary metadata w) = true ->
  fst (delete_document doc_id w1) = true ->
  documents (snd (delete_document doc_id w1)) = documents w.
Proof.
  intros w1 Hfresh Hsave Hdel.
  rewrite save_document_result in Hsave. rewrite delete_document_result in Hdel.
  destruct (save_document_world doc_id filename file_path ocr_text file_type
              file_size summary metadata w) as (_ & _ & _ & Hd).
  destruct (delete_document_world doc_id w1) as (_ & _ & _ & Hd1).
  fold w1 in Hd. rewrite Hsave in Hd. rewrite Hdel in Hd1.
  rewrite Hd1, Hd.
  by apply (delete_eq_upsert_fresh
              (document_row doc_id filename file_path ocr_text file_type
                 file_size summary metadata (now w))).
Qed.

Lemma save_then_delete_restores_witness :
  documents
    (snd (delete_document "d"
            (snd (save_document "d" "order.pdf" "/uploads/order.pdf"
                    "alpha beta gamma" None 16 None None stocked_world))))
  = documents stocked_world.
Proof.
  apply (save_then_delete_restores "d" "order.pdf" "/uploads/order.pdf"
           "alpha beta gamma" None 16 None None stocked_world);
    [compute_done | reflexivity | reflexivity].
Defined.

(** ** Reading one document *)

(** X9. On a healthy store, [get_document_by_id] returns [None] for an
    identifier that no row carries: the answer a caller also gets when the
    store is unavailable. *)
Theorem get_unknown_id (doc_id : string) (w : world) :
  doc_id ∉ List.map Row.id (documents w) ->
  fst (get_document_by_id doc_id w) = None.
Proof.
  intros Hid. rewrite get_document_by_id_result, (select_eq_absent _ _ Hid).
  by destruct (is_available w && negb (call_fails w)).
Qed.

Lemma get_unknown_id_witness :
  is_available stocked_world = true
  /\ call_fails stocked_world = false
  /\ fst (get_document_by_id "missing-id" stocked_world) = None.
Proof.
  split; [reflexivity|]. split; [reflexivity|].
  apply (get_unknown_id "missing-id" stocked_world). compute_done.
Defined.



(** X11. Whatever [get_document_by_id] returns comes from a stored row
    with the identifier asked for: the record carries that identifier, the
    text of the row, and an empty map for a summary or metadata column that
    is [NULL] or empty. *)
Theorem get_returns_stored_row (doc_id : string) (w : world)
    (doc : Document.t) :
  fst (get_document_by_id doc_id w) = Some doc ->
  Document.doc_id doc = doc_id
  /\ exists row,
       row ∈ documents w /\ Row.id row = doc_id
       /\ Document.full_text doc = Row.ocr_text row
       /\ Document.filename doc = Row.filename row
       /\ Document.upload_date doc = Row.upload_date row
       /\ (opt_truthy (Row.summary_json row) = false ->
             Document.summary doc = JDict [])
       /\ (opt_truthy (Row.metadata_json row) = false ->
             Document.metadata doc = JDict []).
Proof.
  rewrite get_document_by_id_result.
  destruct (is_available w && negb (call_fails w)); [|done].
  destruct (select_eq doc_id (documents w)) as [|row rest] eqn:Hsel; [done|].
  assert (row ∈ documents w /\ Row.id row = doc_id) as [Hin Hid].
  { assert (row ∈ select_eq doc_id (documents w)) as Hrow
      by (rewrite Hsel; apply elem_of_cons; by left).
    unfold select_eq in Hrow.
    apply list_elem_of_In, filter_In in Hrow as [Hrow%list_elem_of_In Hid].
    by apply String.eqb_eq in Hid. }
  destruct (decoded (Row.summary_json row)) as [s|] eqn:Hs; [|done].
  destruct (decoded (Row.metadata_json row)) as [m|] eqn:Hm; [|done].
  intros [= <-]. split; [exact Hid|]. exists row.
  split; [exact Hin|]. split; [exact Hid|].
  cbn [document_of_row Document.full_text Document.filename
       Document.upload_date Document.summary Document.metadata].
  split; [done|]. split; [done|]. split; [done|].
  unfold decoded in Hs, Hm.
  split; intros Hnone; rewrite Hnone in *; congruence.
Qed.

Lemma get_returns_stored_row_witness :
  exists doc,
    fst (get_document_by_id "b" stocked_world) = Some doc
    /\ Document.doc_id doc = "b".
Proof.
  destruct (get_document_by_id "b" stocked_world) as [[doc|] w1] eqn:Hget;
    [|discriminate Hget].
  exists doc. split; [reflexivity|].
  apply (get_returns_stored_row "b" stocked_world doc).
  by rewrite Hget.
Defined.

(** ** Listing *)

Lemma length_take_le (n : nat) (s : string) :
  String.length (PyStr.take n s) <= n.
Proof.
  unfold PyStr.take. revert s.
  induction n as [|n IH]; intros [|c s]; cbn; try lia.
  specialize (IH s). lia.
Qed.

(** X12. A text preview is never longer than 303 characters, and a text of
    at most 300 characters is previewed whole. *)
Theorem text_preview_bounded (row : Row.t) (shown : string) :
  Preview.text_preview (preview_of row) = Some shown ->
  String.length shown <= 303
  /\ (forall text, Row.ocr_text row = Some text ->
        String.length text <= 300 -> shown = text).
Proof.
  cbn [preview_of Preview.text_preview]. unfold text_preview_of.
  destruct (Row.ocr_text row) as [text|]; [|done].
  destruct (Nat.ltb_spec 300 (String.length text)) as [Hlong|Hshort].
  - destruct (str_truthy text) eqn:Ht; cbn [andb]; intros [= <-].
    + split; [|intros ? [= <-]; lia].
      rewrite length_append. pose proof (length_take_le 300 text). cbn. lia.
    + destruct text; [cbn in Hlong; lia|done].
  - rewrite andb_false_r. intros [= <-]. split; [lia|]. by intros ? [= <-].
Qed.

Lemma text_preview_bounded_witness :
  exists shown,
    Preview.text_preview
      (preview_of (document_row "a" "notice.txt" "/uploads/notice.txt"
                     sample_text None 74 None None "2024-05-01T10:00:00"))
    = Some shown
    /\ String.length shown <= 303.
Proof.
  exists sample_text. split; [reflexivity|].
  apply (text_preview_bounded
           (document_row "a" "notice.txt" "/uploads/notice.txt" sample_text
              None 74 None None "2024-05-01T10:00:00") sample_text).
  reflexivity.
Defined.

Lemma upsert_split data (t : table) :
  exists t1 t2,
    upsert data t = t1 ++ data :: t2 /\ forall r, r ∈ t1 ++ t2 -> r ∈ t.
Proof.
  induction t as [|x t (t1 & t2 & Heq & Hsub)]; cbn [upsert].
  - by exists [], [].
  - destruct (String.eqb (Row.id x) (Row.id data)).
    + exists [], t. split; [done|]. intros r Hr. apply elem_of_cons. by right.
    + exists (x :: t1), t2. rewrite Heq. split; [done|].
      cbn [app]. intros r [->|Hr]%elem_of_cons; apply elem_of_cons;
        [by left | right; by apply Hsub].
Qed.

Lemma sort_desc_head {A} (geb : A -> A -> bool) (x : A) (t1 t2 : list A) :
  (forall a b, geb a b = false -> geb b a = true) ->
  (forall y, y ∈ t1 ++ t2 -> geb y x = false) ->
  exists rest, sort_desc geb (t1 ++ x :: t2) = x :: rest.
Proof.
  intros Htotal. induction t1 as [|y t1 IH]; intros Hlow.
  - cbn [app sort_desc fold_right]. fold (sort_desc geb t2).
    destruct (sort_desc geb t2) as [|z s] eqn:Hs; [by eexists|].
    cbn [insert_desc].
    assert (z ∈ t2) as Hz.
    { rewrite <- (sort_desc_perm geb t2), Hs. apply elem_of_cons. by left. }
    rewrite (Htotal z x (Hlow z Hz)). by eexists.
  - cbn [app sort_desc fold_right]. fold (sort_desc geb (t1 ++ x :: t2)).
    destruct IH as [rest Hrest].
    { intros z Hz. apply Hlow. cbn [app]. apply elem_of_cons. by right. }
    rewrite Hrest. cbn [insert_desc].
    rewrite (Hlow y); [by eexists|]. cbn [app]. apply elem_of_cons. by left.
Qed.

Lemma string_ltb_leb (a b : string) :
  String.ltb a b = true -> String.leb b a = false.
Proof.
  unfold String.ltb, String.leb. rewrite (String.compare_antisym a b).
  by destruct (String.compare b a).
Qed.

(** X13. After a save that returned [True], made at a time later than the
    upload date of every stored row, the listing starts with the saved
    document. *)
Theorem saved_document_listed_first
    (doc_id filename file_path ocr_text : string)
    (file_type : option string) (file_size : Z)
    (summary metadata : option pydict) (w : world) :
  let w1 := snd (save_document doc_id filename file_path ocr_text file_type
                   file_size summary metadata w) in
  (forall row, row ∈ documents w ->
     exists date,
       Row.upload_date row = Some date /\ String.ltb date (now w) = true) ->
  fst (save_document doc_id filename file_path ocr_text file_type file_size
         summary metadata w) = true ->
  call_fails w1 = false ->
  exists rest,
    fst (get_all_documents_from_db w1)
    = preview_of (document_row doc_id filename file_path ocr_text file_type
                    file_size summary metadata (now w)) :: rest.
Proof.
  intros w1 Hold Hsave Hf1. rewrite save_document_result in Hsave.
  destruct (save_document_world doc_id filename file_path ocr_text file_type
              file_size summary metadata w) as (Ha1 & _ & _ & Hd).
  fold w1 in Ha1, Hd. rewrite Hsave in Hd.
  apply andb_true_iff in Hsave as [Ha _].
  rewrite get_all_documents_from_db_result, Ha1, Ha, Hf1, Hd. cbn [andb negb].
  set (data := document_row doc_id filename file_path ocr_text file_type
                 file_size summary metadata (now w)).
  destruct (upsert_split data (documents w)) as (t1 & t2 & -> & Hsub).
  unfold select_order_desc.
  destruct (sort_desc_head
              (fun a b => date_geb (Row.upload_date a) (Row.upload_date b))
              data t1 t2) as [rest ->].
  - intros a b. apply date_geb_total.
  - intros row Hrow. destruct (Hold row (Hsub row Hrow)) as (date & -> & Hlt).
    cbn. by apply string_ltb_leb.
  - by eexists.
Qed.

Lemma saved_document_listed_first_witness :
  exists rest,
    List.map Preview.doc_id
      (fst (get_all_documents_from_db
              (snd (save_document "a" "notice.txt" "/uploads/notice.txt"
                      sample_text None 74 None None
                      (at_time "2024-06-01T12:00:00" stocked_world)))))
    = "a" :: rest.
Proof.
  destruct (saved_document_listed_first "a" "notice.txt" "/uploads/notice.txt"
              sample_text None 74 None None
              (at_time "2024-06-01T12:00:00" stocked_world))
    as [rest Hrest]; [| reflexivity | reflexivity |].
  - intros row Hrow. cbn in Hrow.
    repeat (apply elem_of_cons in Hrow as [->|Hrow]; [by eexists|]).
    by apply elem_of_nil in Hrow.
  - exists (List.map Preview.doc_id rest). by rewrite Hrest.
Defined.

(** ** Similar documents: scores *)

Lemma jaccard_bounds (a b : gset string) :
  (0 <= jaccard a b)%Q /\ (jaccard a b <= 1)%Q.
Proof.
  unfold jaccard, Qle. cbn [Qnum Qden].
  assert (size (a ∩ b) <= size (a ∪ b)) as Hle
    by (apply subseteq_size; etrans;
        [apply intersection_subseteq_l | apply union_subseteq_l]).
  split; [lia|].
  destruct (size (a ∪ b)) as [|n] eqn:Hu.
  - assert (size (a ∩ b) = 0) as -> by lia. cbn. lia.
  - rewrite <- (positive_nat_Z (Pos.of_nat (S n))), Nat2Pos.id by lia. lia.
Qed.

Lemma round1_percent_bounds (x : Q) :
  (0 <= x)%Q -> (x <= 1)%Q ->
  (0 <= round1 (x * 100))%Q /\ (round1 (x * 100) <= 100)%Q.
Proof.
  intros H0 H1. pose proof (round_half_even_near (x * 100 * 10)) as Hn.
  unfold round1. set (z := round_half_even (x * 100 * 10)) in *.
  destruct x as [n d]. unfold Qle in *. cbn [Qmult Qnum Qden] in *.
  rewrite ?Pos2Z.inj_mul in *. split; nia.
Qed.

Lemma round_half_even_integer (q : Q) (z : Z) :
  (q == inject_Z z)%Q -> round_half_even q = z.
Proof.
  destruct q as [n d]. unfold Qeq, round_half_even. cbn [Qnum Qden inject_Z].
  intros Hq. assert (n = z * Zpos d)%Z as -> by lia.
  rewrite Z.div_mul, Z.mod_mul by done.
  destruct (Z.ltb_spec (2 * 0) (Zpos d)); [done|lia].
Qed.

Lemma jaccard_same (a : gset string) :
  0 < size a -> (jaccard a a == 1)%Q.
Proof.
  intros Ha. unfold jaccard.
  rewrite intersection_idemp_L, union_idemp_L. unfold Qeq. cbn [Qnum Qden].
  rewrite <- (positive_nat_Z (Pos.of_nat (size a))), Nat2Pos.id by lia. lia.
Qed.

Lemma jaccard_disjoint (a b : gset string) :
  size (a ∩ b) = 0 -> (jaccard a b == 0)%Q.
Proof. intros Hd. unfold jaccard. rewrite Hd. reflexivity. Qed.

Lemma in_find_similar_result new_text threshold w m :
  m ∈ fst (find_similar_documents new_text threshold w) ->
  exists row,
    row ∈ documents w /\ kept (word_set new_text) threshold row = true
    /\ m = match_of (word_set new_text) row.
Proof.
  rewrite find_similar_documents_result.
  destruct (is_available w && negb (call_fails w)
            && (10 <=? size (word_set new_text)));
    [apply elem_of_find_similar_spec | by intros ?%elem_of_nil].
Qed.

Lemma result_similarity_range new_text threshold w m :
  m ∈ fst (find_similar_documents new_text threshold w) ->
  (0 <= Match.similarity m)%Q /\ (Match.similarity m <= 100)%Q.
Proof.
  intros (row & _ & _ & ->)%in_find_similar_result.
  cbn [match_of Match.similarity].
  destruct (jaccard_bounds (word_set new_text) (row_words row)).
  by apply round1_percent_bounds.
Qed.

(** X14. Every similarity that [find_similar_documents] reports lies
    between 0 and 100; a threshold above 1 gives no match at all, and with
    a threshold of 0 or less every stored document with at least ten
    distinct tokens is a match. *)
Theorem similarity_range (new_text : string) (threshold : Q) (w : world) :
  let result := fst (find_similar_documents new_text threshold w) in
  (forall m, m ∈ result ->
     (0 <= Match.similarity m)%Q /\ (Match.similarity m <= 100)%Q)
  /\ ((1 < threshold)%Q -> result = [])
  /\ ((threshold <= 0)%Q ->
      forall row,
        kept (word_set new_text) threshold row = true
        <-> 10 <= size (row_words row)).
Proof.
  intros result. split; [|split].
  - apply result_similarity_range.
  - intros Hthr. destruct result as [|m rest] eqn:Hres; [done|]. exfalso.
    assert (m ∈ result) as Hm by (rewrite Hres; apply elem_of_cons; by left).
    apply in_find_similar_result in Hm as (row & _ & Hk & _).
    apply kept_iff in Hk as [_ Hk].
    destruct (jaccard_bounds (word_set new_text) (row_words row)) as [_ Hle].
    apply (Qlt_not_le _ _ Hthr). by apply (Qle_trans _ _ _ Hk).
  - intros Hthr row. rewrite kept_iff. split; [by intros [? _]|].
    intros Hten. split; [done|].
    apply (Qle_trans _ 0); [done|]. apply jaccard_bounds.
Qed.

Lemma similarity_range_witness :
  fst (find_similar_documents sample_text (11 # 10) stocked_world) = [].
Proof.
  apply (proj1 (proj2 (similarity_range sample_text (11 # 10) stocked_world))).
  reflexivity.
Defined.

(** X15. A stored document with the token set of the candidate, of at
    least ten tokens, is a match for every threshold up to 1 and is
    reported at 100.0; the first match returned is then at 100. *)
Theorem identical_text_scores_100 (new_text : string) (threshold : Q)
    (w : world) (row : Row.t) :
  row ∈ documents w ->
  row_words row = word_set new_text ->
  10 <= size (word_set new_text) ->
  (threshold <= 1)%Q ->
  is_available w = true -> call_fails w = false ->
  kept (word_set new_text) threshold row = true
  /\ Match.similarity (match_of (word_set new_text) row) = 1000 # 10
  /\ exists top rest,
       fst (find_similar_documents new_text threshold w) = top :: rest
       /\ (Match.similarity top == 100)%Q.
Proof.
  intros Hrow Hsame Hten Hthr Ha Hf.
  assert (jaccard (word_set new_text) (row_words row) == 1)%Q as Hj
    by (rewrite Hsame; apply jaccard_same; lia).
  assert (kept (word_set new_text) threshold row = true) as Hk.
  { apply kept_iff. rewrite Hsame at 1. split; [done|]. by rewrite Hj. }
  assert (Match.similarity (match_of (word_set new_text) row) = 1000 # 10)
    as Hsim.
  { cbn [match_of Match.similarity]. rewrite round1_tenths. f_equal.
    apply round_half_even_integer. by rewrite Hj. }
  split; [exact Hk|]. split; [exact Hsim|].
  set (scored := List.map (match_of (word_set new_text))
                   (List.filter (kept (word_set new_text) threshold)
                      (documents w))).
  assert (fst (find_similar_documents new_text threshold w)
          = firstn 5 (sort_desc similarity_geb scored)) as Hres.
  { rewrite find_similar_documents_result, Ha, Hf.
    by rewrite (proj2 (Nat.leb_le _ _) Hten). }
  pose proof (sort_desc_perm similarity_geb scored) as Hperm.
  pose proof (sort_desc_sorted similarity_geb similarity_geb_total
                similarity_geb_trans scored) as Hsorted.
  assert (match_of (word_set new_text) row ∈ sort_desc similarity_geb scored)
    as Hin.
  { rewrite Hperm. apply list_elem_of_In, in_map, filter_In.
    by rewrite <- list_elem_of_In. }
  destruct (sort_desc similarity_geb scored) as [|top sorted] eqn:Hs;
    [by apply elem_of_nil in Hin|].
  exists top, (firstn 4 sorted). split; [by rewrite Hres|].
  apply Qle_antisym.
  - assert (top ∈ fst (find_similar_documents new_text threshold w)) as Htop
      by (rewrite Hres; apply elem_of_cons; by left).
    by apply result_similarity_range in Htop as [_ Htop].
  - apply elem_of_cons in Hin as [<-|Hin].
    + rewrite Hsim. by unfold Qle.
    + apply StronglySorted_inv in Hsorted as [_ Hall].
      rewrite List.Forall_forall in Hall.
      specialize (Hall _ (proj1 (list_elem_of_In _ _) Hin)).
      unfold similarity_geb in Hall. apply Qle_bool_iff in Hall.
      rewrite Hsim in Hall.
      apply (Qle_trans _ (1000 # 10)); [by unfold Qle|exact Hall].
Qed.

Lemma identical_text_scores_100_witness :
  exists top rest,
    fst (find_similar_documents sample_text default_threshold stocked_world)
    = top :: rest
    /\ (Match.similarity top == 100)%Q.
Proof.
  apply (identical_text_scores_100 sample_text default_threshold stocked_world
           (document_row "a" "notice.txt" "/uploads/notice.txt" sample_text
              None 74 None None "2024-05-01T10:00:00"));
    [ apply elem_of_cons; by left | reflexivity
    | apply Nat.leb_le; vm_compute; reflexivity | by unfold Qle
    | reflexivity | reflexivity ].
Defined.

(** X16. A stored document that shares no token with the candidate scores
    0 and is never returned when the threshold is positive. *)
Theorem disjoint_text_excluded (new_text : string) (threshold : Q)
    (w : world) (row : Row.t) :
  size (word_set new_text ∩ row_words row) = 0 ->
  (0 < threshold)%Q ->
  (jaccard (word_set new_text) (row_words row) == 0)%Q
  /\ kept (word_set new_text) threshold row = false
  /\ (pk_unique (documents w) -> row ∈ documents w ->
      Row.id row ∉ List.map Match.doc_id
                     (fst (find_similar_documents new_text threshold w))).
Proof.
  intros Hdis Hthr.
  pose proof (jaccard_disjoint _ _ Hdis) as Hj.
  assert (kept (word_set new_text) threshold row = false) as Hk.
  { apply not_true_is_false. intros [_ Hk]%kept_iff.
    rewrite Hj in Hk. by apply (Qlt_not_le _ _ Hthr). }
  split; [exact Hj|]. split; [exact Hk|].
  intros Hpk Hrow (m & Hid & Hm)%list_elem_of_In%in_map_iff.
  apply list_elem_of_In, in_find_similar_result in Hm
    as (row' & Hrow' & Hk' & ->).
  assert (row' = row) as ->
    by (by apply (pk_unique_same_id (documents w))).
  congruence.
Qed.

Lemma disjoint_text_excluded_witness :
  "a" ∉ List.map Match.doc_id
          (fst (find_similar_documents
                  "alpha beta gamma delta epsilon zeta eta theta iota kappa mu"
                  (1 # 100) stocked_world)).
Proof.
  apply (disjoint_text_excluded
           "alpha beta gamma delta epsilon zeta eta theta iota kappa mu"
           (1 # 100) stocked_world
           (document_row "a" "notice.txt" "/uploads/notice.txt" sample_text
              None 74 None None "2024-05-01T10:00:00")).
  - vm_compute. reflexivity.
  - reflexivity.
  - compute_done.
  - apply elem_of_cons. by left.
Defined.

(** ** Similar documents: what the answer depends on *)

Lemma lower_char_idempotent (c : ascii) :
  PyStr.lower_char (PyStr.lower_char c) = PyStr.lower_char c.
Proof. destruct c as [[] [] [] [] [] [] [] []]; reflexivity. Qed.

Lemma lower_idempotent (s : string) : PyStr.lower (PyStr.lower s) = PyStr.lower s.
Proof.
  induction s as [|c s IH]; [done|].
  cbn [PyStr.lower]. by rewrite lower_char_idempotent, IH.
Qed.

(** X17. The answer of [find_similar_documents] depends on the candidate
    only through its set of case-folded tokens: two candidates with the
    same set get the same matches, and so does a candidate and its
    lower-cased form. *)
Theorem candidate_token_set_decides (threshold : Q) (w : world) :
  (forall text1 text2,
     word_set text1 = word_set text2 ->
     fst (find_similar_documents text1 threshold w)
     = fst (find_similar_documents text2 threshold w))
  /\ (forall text,
        fst (find_similar_documents (PyStr.lower text) threshold w)
        = fst (find_similar_documents text threshold w)).
Proof.
  assert (forall text1 text2,
     word_set text1 = word_set text2 ->
     fst (find_similar_documents text1 threshold w)
     = fst (find_similar_documents text2 threshold w)) as Hsame.
  { intros text1 text2 Heq. rewrite !find_similar_documents_result.
    unfold find_similar_spec. by rewrite Heq. }
  split; [exact Hsame|].
  intros text. apply Hsame. unfold word_set. by rewrite lower_idempotent.
Qed.

Lemma candidate_token_set_decides_witness :
  fst (find_similar_documents (PyStr.lower sample_text) default_threshold
         stocked_world)
  = fst (find_similar_documents sample_text default_threshold stocked_world).
Proof.
  apply (proj2 (candidate_token_set_decides default_threshold stocked_world)).
Defined.

Lemma NoDup_filter_map (t : table) (keep : Row.t -> bool) :
  NoDup (List.map Row.id t) -> NoDup (List.map Row.id (List.filter keep t)).
Proof.
  induction t as [|r t IH]; [done|]. cbn [List.map List.filter].
  intros [Hr Hnd]%NoDup_cons. destruct (keep r); [|by apply IH].
  cbn [List.map]. apply NoDup_cons. split; [|by apply IH].
  intros (r' & Hid & Hin)%list_elem_of_In%in_map_iff.
  apply filter_In in Hin as [Hin _]. apply Hr.
  rewrite <- Hid. by apply (list_elem_of_fmap_2 Row.id), list_elem_of_In.
Qed.

(** X18. On a table whose identifiers are unique, no document is reported
    twice: the identifiers of the matches are pairwise distinct, and each
    is the identifier of a stored row. *)
Theorem matches_are_distinct_stored (new_text : string) (threshold : Q)
    (w : world) :
  let result := fst (find_similar_documents new_text threshold w) in
  pk_unique (documents w) ->
  NoDup (List.map Match.doc_id result)
  /\ forall id, id ∈ List.map Match.doc_id result ->
                id ∈ List.map Row.id (documents w).
Proof.
  intros result Hpk. split.
  - unfold result. rewrite find_similar_documents_result.
    destruct (is_available w && negb (call_fails w)
              && (10 <=? size (word_set new_text))); [|apply NoDup_nil_2].
    unfold find_similar_spec.
    set (scored := List.map (match_of (word_set new_text))
                     (List.filter (kept (word_set new_text) threshold)
                        (documents w))).
    assert (NoDup (List.map Match.doc_id (sort_desc similarity_geb scored)))
      as Hnd.
    { rewrite (Permutation_map Match.doc_id (sort_desc_perm similarity_geb scored)).
      unfold scored. rewrite List.map_map. cbn [match_of Match.doc_id].
      by apply NoDup_filter_map. }
    rewrite <- (firstn_skipn 5 (sort_desc similarity_geb scored)) in Hnd.
    rewrite List.map_app in Hnd. by apply NoDup_app in Hnd as [Hnd _].
  - intros id (m & <- & Hm)%list_elem_of_In%in_map_iff.
    apply list_elem_of_In, in_find_similar_result in Hm as (row & Hrow & _ & ->).
    by apply (list_elem_of_fmap_2 Row.id).
Qed.

Lemma matches_are_distinct_stored_witness :
  NoDup (List.map Match.doc_id
           (fst (find_similar_documents sample_text default_threshold
                   stocked_world))).
Proof.
  apply (matches_are_distinct_stored sample_text default_threshold
           stocked_world).
  compute_done.
Defined.

(** ** The local schema *)







(** X20. [init_db] leaves the local disk alone when the remote client is
    available and builds the local schema when it is not; in neither case
    does it touch the stored documents. *)
Theorem init_db_fallback (w : world) (d : Sqlite.disk) :
  snd (init_db w d)
  = (if is_available w then d else Sqlite._init_sqlite d)
  /\ documents (fst (init_db w d)) = documents w
  /\ is_available (fst (init_db w d)) = is_available w.
Proof.
  unfold init_db.
  pose proof (is_available_get_supabase_client w) as Ha.
  pose proof (proj1 (get_supabase_client_env w)) as Hd.
  unfold is_available at 1 3.
  unfold is_available in Ha at 2.
  by destruct (get_supabase_client w) as [[c|] w1].
Qed.

Lemma init_db_fallback_witness :
  snd (init_db unconfigured_world sample_disk) = Sqlite._init_sqlite sample_disk
  /\ snd (init_db sample_world sample_disk) = sample_disk.
Proof.
  split.
  - apply (proj1 (init_db_fallback unconfigured_world sample_disk)).
  - apply (proj1 (init_db_fallback sample_world sample_disk)).
Defined.
